(** * factorio_solver: configuration derivation

    A shallow embedding of [solver/factorio_solver.py]: the default
    enumeration of raw inputs ([setup_inputs]), the two manual token parsers
    ([parse_input_list], [parse_resources_list]), the expansion of
    productivity research ([parse_productivity_research_list]) and the
    assembly of the configuration in [main].

    Python exceptions are values of [exn]; a function that can raise returns
    a [result].  Python's built-in [float] is not part of the repository and
    is a parameter of the development: every theorem holds for any reading
    of strings as numbers. *)

From Stdlib Require Import String Ascii List ZArith Lia.
From stdpp Require Import base option list strings gmap.

Open Scope string_scope.
Open Scope list_scope.

(** ** Exceptions and results *)

(** The three messages with which a [ValueError] is raised by the code:
    unpacking [a, b = parts] with too few or too many parts, and [float]
    on a string that is no number. *)
Inductive value_error : Type :=
  | NotEnoughValues (got : nat)
  | TooManyValues
  | NotAFloat (s : string).

Inductive exn : Type :=
  | ValueError (why : value_error)
  | KeyError (k : string)
  | IndexError.

Inductive result (A : Type) : Type :=
  | Ok (a : A)
  | Raise (e : exn).
Arguments Ok {A} a.
Arguments Raise {A} e.

#[global] Instance result_bind : MBind result := fun _ _ f r =>
  match r with
  | Ok a => f a
  | Raise e => Raise e
  end.
#[global] Instance result_fmap : FMap result := fun _ _ f r =>
  match r with
  | Ok a => Ok (f a)
  | Raise e => Raise e
  end.

Definition is_ValueError (e : exn) : bool :=
  match e with
  | ValueError _ => true
  | _ => false
  end.

(** ** Strings *)

(** [s.split(sep)] for a separator of one character. *)
Fixpoint split (sep : ascii) (s : string) : list string :=
  match s with
  | EmptyString => [EmptyString]
  | String c rest =>
      if Ascii.eqb c sep then EmptyString :: split sep rest
      else match split sep rest with
           | [] => [String c EmptyString]
           | part :: parts => String c part :: parts
           end
  end.

(** [a, b = parts] *)
Definition unpack2 (parts : list string) : result (string * string) :=
  match parts with
  | [a; b] => Ok (a, b)
  | [] | [_] => Raise (ValueError (NotEnoughValues (length parts)))
  | _ => Raise (ValueError TooManyValues)
  end.

(** Number of occurrences of a character, and the segments before and after
    its first occurrence: the words in which the specification describes a
    token. *)
Fixpoint occurrences (sep : ascii) (s : string) : nat :=
  match s with
  | EmptyString => 0
  | String c rest => (if Ascii.eqb c sep then 1 else 0) + occurrences sep rest
  end.

Fixpoint before_first (sep : ascii) (s : string) : string :=
  match s with
  | EmptyString => EmptyString
  | String c rest => if Ascii.eqb c sep then EmptyString else String c (before_first sep rest)
  end.

Fixpoint after_first (sep : ascii) (s : string) : string :=
  match s with
  | EmptyString => EmptyString
  | String c rest => if Ascii.eqb c sep then rest else after_first sep rest
  end.

(** ** Data model *)

(** The part of the game data that the solver front end reads. *)
Record plant_result : Type := { result_name : string }.

Record plant_info : Type := {
  plant_key : string;
  plant_results : list plant_result
}.

Record planet_resources : Type := {
  offshore : list string;
  plants : list string;
  resource : list string
}.

Record planet : Type := { resources : planet_resources }.

Record game_data : Type := {
  data_planets : list planet;
  data_plants : list plant_info
}.

(** [RESEARCH_PRODUCTIVITY_ITEM_RECIPE_MAP] *)
Definition RESEARCH_PRODUCTIVITY_ITEM_RECIPE_MAP : gmap string (list string) :=
  list_to_map [
    ("steel-plate", ["steel-plate"; "casting-steel"]);
    ("low-density-structure", ["low-density-structure"; "casting-low-density-structure"]);
    ("scrap", ["scrap-recycling"]);
    ("processing-unit", ["processing-unit"]);
    ("plastic-bar", ["plastic-bar"]);
    ("rocket-fuel", ["rocket-fuel"; "rocket-fuel-from-jelly"; "ammonia-rocket-fuel"]);
    ("asteroid", ["carbonic-asteroid-crushing"; "metallic-asteroid-crushing"; "oxide-asteroid-crushing";
                  "advanced-carbonic-asteroid-crushing"; "advanced-metallic-asteroid-crushing";
                  "advanced-oxide-asteroid-crushing"])
  ].

Section Records.
Context {num : Type}.

(** An entry of the [inputs] list of the configuration. *)
Record input_spec : Type := {
  in_key : string;
  in_quality : string;
  in_resource : bool;
  in_cost : num
}.

Record output_spec : Type := {
  out_key : string;
  out_quality : string;
  out_amount : num
}.

(** The namespace returned by [parser.parse_args()]. *)
Record arguments : Type := {
  output_item : string;
  output_amount : num;
  output_quality : string;
  prod_module_tier : Z;
  quality_module_tier : Z;
  check_speed_modules : bool;
  speed_module_tier : Z;
  module_quality : string;
  prod_module_quality : option string;
  quality_module_quality : option string;
  speed_module_quality : option string;
  building_quality : string;
  max_quality_unlocked : string;
  input_items : option (list string);
  input_quality : string;
  input_resources : option (list string);
  productivity_research : option (list string);
  allow_byproducts : bool;
  allowed_recipes : option (list string);
  disallowed_recipes : option (list string);
  allowed_crafting_machines : option (list string);
  disallowed_crafting_machines : option (list string);
  resource_cost : num;
  farming_cost : num;
  offshore_cost : num;
  module_cost : num;
  building_cost : num;
  output_csv : option string;
  output_flow_chart : option string;
  verbose : bool
}.

(** The [config] dictionary built by [main]. *)
Record configuration : Type := {
  cfg_quality_module_tier : Z;
  cfg_quality_module_quality : string;
  cfg_prod_module_tier : Z;
  cfg_prod_module_quality : string;
  cfg_check_speed_modules : bool;
  cfg_speed_module_tier : Z;
  cfg_speed_module_quality : string;
  cfg_building_quality : string;
  cfg_max_quality_unlocked : string;
  cfg_productivity_research : gmap string num;
  cfg_allow_byproducts : bool;
  cfg_module_cost : num;
  cfg_building_cost : num;
  cfg_allowed_recipes : option (list string);
  cfg_disallowed_recipes : option (list string);
  cfg_allowed_crafting_machines : option (list string);
  cfg_disallowed_crafting_machines : option (list string);
  cfg_inputs : list input_spec;
  cfg_outputs : list output_spec
}.

(** The one call [run_solver_from_command_line(config, FACTORIO_DATA,
    args.verbose, args.output_csv, args.output_flow_chart)] that ends
    [main]. *)
Record solver_call : Type := {
  call_config : configuration;
  call_data : game_data;
  call_verbose : bool;
  call_output_csv : option string;
  call_output_flow_chart : option string
}.

End Records.

Arguments input_spec num : clear implicits.
Arguments output_spec num : clear implicits.
Arguments arguments num : clear implicits.
Arguments configuration num : clear implicits.
Arguments solver_call num : clear implicits.

(** ** Python truthiness *)

(** [x or y] where [x] is [None] or a string: the empty string is falsy. *)
Definition py_or (x : option string) (y : string) : string :=
  match x with
  | Some ((String _ _) as s) => s
  | Some EmptyString | None => y
  end.

(** [x if x else None] where [x] is [None] or a list. *)
Definition py_if_else_None {A} (x : option (list A)) : option (list A) :=
  match x with
  | Some (_ :: _) => x
  | Some [] | None => None
  end.

(** ** The program *)

Section Program.
Context {num : Type}.

(** Python's [float(s)]: [None] where it raises [ValueError]. *)
Variable float : string -> option num.

(** The game data read from [data/space-age-2.0.11.json] at import. *)
Variable FACTORIO_DATA : game_data.

Definition py_float (s : string) : result num :=
  match float s with
  | Some x => Ok x
  | None => Raise (ValueError (NotAFloat s))
  end.

(** [[p for p in FACTORIO_DATA['plants'] if p['key']==plant][0]] *)
Definition find_plant (plant : string) : result plant_info :=
  match filter (fun p => plant_key p = plant) (data_plants FACTORIO_DATA) with
  | p :: _ => Ok p
  | [] => Raise IndexError
  end.

(** The loops of [setup_inputs]; [inputs] is the list built so far. *)
Fixpoint offshore_loop (offshore_cost : num) (keys : list string)
    (inputs : list (input_spec num)) : list (input_spec num) :=
  match keys with
  | [] => inputs
  | offshore_key :: keys =>
      let input := {| in_key := offshore_key; in_quality := "normal";
                      in_resource := false; in_cost := offshore_cost |} in
      offshore_loop offshore_cost keys (inputs ++ [input])
  end.

Fixpoint results_loop (farming_cost : num) (results : list plant_result)
    (inputs : list (input_spec num)) : list (input_spec num) :=
  match results with
  | [] => inputs
  | r :: results =>
      let input := {| in_key := result_name r; in_quality := "normal";
                      in_resource := false; in_cost := farming_cost |} in
      results_loop farming_cost results (inputs ++ [input])
  end.

Fixpoint plants_loop (farming_cost : num) (ps : list string)
    (inputs : list (input_spec num)) : result (list (input_spec num)) :=
  match ps with
  | [] => Ok inputs
  | plant :: ps =>
      info ← find_plant plant;
      plants_loop farming_cost ps (results_loop farming_cost (plant_results info) inputs)
  end.

Fixpoint resource_loop (resource_cost : num) (keys : list string)
    (inputs : list (input_spec num)) : list (input_spec num) :=
  match keys with
  | [] => inputs
  | resource_key :: keys =>
      let input := {| in_key := resource_key; in_quality := "normal";
                      in_resource := true; in_cost := resource_cost |} in
      resource_loop resource_cost keys (inputs ++ [input])
  end.

Fixpoint planets_loop (resource_cost farming_cost offshore_cost : num)
    (ps : list planet) (inputs : list (input_spec num)) : result (list (input_spec num)) :=
  match ps with
  | [] => Ok inputs
  | p :: ps =>
      let inputs := offshore_loop offshore_cost (offshore (resources p)) inputs in
      inputs ← plants_loop farming_cost (plants (resources p)) inputs;
      let inputs := resource_loop resource_cost (resource (resources p)) inputs in
      planets_loop resource_cost farming_cost offshore_cost ps inputs
  end.

Definition setup_inputs (resource_cost farming_cost offshore_cost : num)
    : result (list (input_spec num)) :=
  planets_loop resource_cost farming_cost offshore_cost (data_planets FACTORIO_DATA) [].

(** [parse_input_list]: the loop, then the function. *)
Fixpoint parse_input_loop (input_quality : string) (items : list string)
    (inputs : list (input_spec num)) : result (list (input_spec num)) :=
  match items with
  | [] => Ok inputs
  | item :: items =>
      '(item_key, item_cost_str) ← unpack2 (split "=" item);
      item_cost ← py_float item_cost_str;
      let input := {| in_key := item_key; in_quality := input_quality;
                      in_resource := false; in_cost := item_cost |} in
      parse_input_loop input_quality items (inputs ++ [input])
  end.

Definition parse_input_list (items : list string) (input_quality : string)
    : result (list (input_spec num)) :=
  parse_input_loop input_quality items [].

(** [parse_resources_list] *)
Fixpoint parse_resources_loop (items : list string)
    (inputs : list (input_spec num)) : result (list (input_spec num)) :=
  match items with
  | [] => Ok inputs
  | item :: items =>
      '(item_key, item_cost_str) ← unpack2 (split "=" item);
      item_cost ← py_float item_cost_str;
      let input := {| in_key := item_key; in_quality := "normal";
                      in_resource := true; in_cost := item_cost |} in
      parse_resources_loop items (inputs ++ [input])
  end.

Definition parse_resources_list (items : list string) : result (list (input_spec num)) :=
  parse_resources_loop items [].

(** [parse_productivity_research_list]: the inner loop over the recipe keys
    (which calls [float] once per recipe key), the outer loop over the
    tokens, then the function. *)
Fixpoint recipe_keys_loop (item_prod_str : string) (recipe_keys : list string)
    (productivity_research : gmap string num) : result (gmap string num) :=
  match recipe_keys with
  | [] => Ok productivity_research
  | recipe_key :: recipe_keys =>
      item_prod ← py_float item_prod_str;
      recipe_keys_loop item_prod_str recipe_keys (<[recipe_key := item_prod]> productivity_research)
  end.

Definition research_lookup (item_key : string) : result (list string) :=
  match RESEARCH_PRODUCTIVITY_ITEM_RECIPE_MAP !! item_key with
  | Some recipe_keys => Ok recipe_keys
  | None => Raise (KeyError item_key)
  end.

Fixpoint research_loop (items : list string)
    (productivity_research : gmap string num) : result (gmap string num) :=
  match items with
  | [] => Ok productivity_research
  | item :: items =>
      '(item_key, item_prod_str) ← unpack2 (split "=" item);
      recipe_keys ← research_lookup item_key;
      productivity_research ← recipe_keys_loop item_prod_str recipe_keys productivity_research;
      research_loop items productivity_research
  end.

Definition parse_productivity_research_list (items : list string) : result (gmap string num) :=
  research_loop items ∅.

(** [main], lines 161 to 170: the choice of the inputs. *)
Definition main_inputs (args : arguments num) : result (list (input_spec num)) :=
  match input_items args, input_resources args with
  | None, None =>
      setup_inputs (resource_cost args) (farming_cost args) (offshore_cost args)
  | _, _ =>
      let inputs := [] in
      inputs ← match input_items args with
               | Some items =>
                   input_items ← parse_input_list items (input_quality args);
                   Ok (inputs ++ input_items)
               | None => Ok inputs
               end;
      match input_resources args with
      | Some resources =>
          input_resources ← parse_resources_list resources;
          Ok (inputs ++ input_resources)
      | None => Ok inputs
      end
  end.

(** [main], line 172. *)
Definition main_productivity_research (args : arguments num) : result (gmap string num) :=
  match productivity_research args with
  | Some ((_ :: _) as items) => parse_productivity_research_list items
  | Some [] | None => Ok ∅
  end.

(** [main], from the parsed arguments to the call of the solver. *)
Definition main (args : arguments num) : result (solver_call num) :=
  inputs ← main_inputs args;
  productivity_research ← main_productivity_research args;
  let config := {|
    cfg_quality_module_tier := quality_module_tier args;
    cfg_quality_module_quality := py_or (quality_module_quality args) (module_quality args);
    cfg_prod_module_tier := prod_module_tier args;
    cfg_prod_module_quality := py_or (prod_module_quality args) (module_quality args);
    cfg_check_speed_modules := check_speed_modules args;
    cfg_speed_module_tier := speed_module_tier args;
    cfg_speed_module_quality := py_or (speed_module_quality args) (module_quality args);
    cfg_building_quality := building_quality args;
    cfg_max_quality_unlocked := max_quality_unlocked args;
    cfg_productivity_research := productivity_research;
    cfg_allow_byproducts := allow_byproducts args;
    cfg_module_cost := module_cost args;
    cfg_building_cost := building_cost args;
    cfg_allowed_recipes := py_if_else_None (allowed_recipes args);
    cfg_disallowed_recipes := py_if_else_None (disallowed_recipes args);
    cfg_allowed_crafting_machines := py_if_else_None (allowed_crafting_machines args);
    cfg_disallowed_crafting_machines := py_if_else_None (disallowed_crafting_machines args);
    cfg_inputs := inputs;
    cfg_outputs := [ {| out_key := output_item args; out_quality := output_quality args;
                        out_amount := output_amount args |} ]
  |} in
  Ok {| call_config := config; call_data := FACTORIO_DATA; call_verbose := verbose args;
          call_output_csv := output_csv args; call_output_flow_chart := output_flow_chart args |}.

End Program.

(** ** The specification's vocabulary *)

Section Vocabulary.
Context {num : Type}.
Variable float : string -> option num.

(** A token is well formed when it has exactly one ['='] and the segment
    after it reads as a number. *)
Definition well_formed (item : string) : Prop :=
  occurrences "=" item = 1 ∧ is_Some (float (after_first "=" item)).

(** [item_entry_of q item i]: [i] is the entry of the token [item] in the
    item variant, for the input quality [q]. *)
Definition item_entry_of (q : string) (item : string) (i : input_spec num) : Prop :=
  occurrences "=" item = 1 ∧
  ∃ v, float (after_first "=" item) = Some v ∧
       i = {| in_key := before_first "=" item; in_quality := q;
              in_resource := false; in_cost := v |}.

(** The same for the resource variant. *)
Definition resource_entry_of (item : string) (i : input_spec num) : Prop :=
  occurrences "=" item = 1 ∧
  ∃ v, float (after_first "=" item) = Some v ∧
       i = {| in_key := before_first "=" item; in_quality := "normal";
              in_resource := true; in_cost := v |}.

(** What the resource variant makes of an entry of the item variant. *)
Definition as_resource (i : input_spec num) : input_spec num :=
  {| in_key := in_key i; in_quality := "normal"; in_resource := true; in_cost := in_cost i |}.

(** A research token [item] names the item key [k], known to the table with
    the recipe keys [rs], at the level [v]. *)
Definition research_token (item k : string) (rs : list string) (v : num) : Prop :=
  occurrences "=" item = 1 ∧ k = before_first "=" item ∧
  RESEARCH_PRODUCTIVITY_ITEM_RECIPE_MAP !! k = Some rs ∧
  float (after_first "=" item) = Some v.

(** A research token whose item key is not in the table. *)
Definition unknown_research_key (item : string) : Prop :=
  occurrences "=" item = 1 ∧
  RESEARCH_PRODUCTIVITY_ITEM_RECIPE_MAP !! before_first "=" item = None.

(** The research tokens [items], read as [toks]: item key, recipe keys of the
    table and level of each token. *)
Definition research_tokens (items : list string)
    (toks : list (string * list string * num)) : Prop :=
  Forall2 (fun item t => research_token item t.1.1 t.1.2 t.2) items toks.

(** The entries of a manual list: those of its tokens if the caller supplied
    the list, none if not. *)
Definition manual_items (args : arguments num) : result (list (input_spec num)) :=
  match input_items args with
  | Some items => parse_input_list float items (input_quality args)
  | None => Ok []
  end.

Definition manual_resources (args : arguments num) : result (list (input_spec num)) :=
  match input_resources args with
  | Some resources => parse_resources_list float resources
  | None => Ok []
  end.

(** The entries of the default enumeration, in the specification's words. *)
Definition offshore_entry (offshore_cost : num) (k : string) : input_spec num :=
  {| in_key := k; in_quality := "normal"; in_resource := false; in_cost := offshore_cost |}.

Definition farming_entry (farming_cost : num) (r : plant_result) : input_spec num :=
  {| in_key := result_name r; in_quality := "normal"; in_resource := false; in_cost := farming_cost |}.

Definition resource_entry (resource_cost : num) (k : string) : input_spec num :=
  {| in_key := k; in_quality := "normal"; in_resource := true; in_cost := resource_cost |}.

End Vocabulary.

(** The definition of a plant: the first entry of the data with its key. *)
Definition plant_definition (data : game_data) (plant : string) : option plant_info :=
  head (filter (fun p => plant_key p = plant) (data_plants data)).

(** Every plant that a planet lists has a definition in the data. *)
Definition plants_defined (data : game_data) : Prop :=
  Forall (fun p => Forall (fun plant => is_Some (plant_definition data plant))
                          (plants (resources p)))
         (data_planets data).

(** The result items of a list of plants, one per result entry of each
    plant, in order; and those of the plants of a planet. *)
Definition plants_results (data : game_data) (ps : list string) : list plant_result :=
  flat_map (fun plant => match plant_definition data plant with
                         | Some info => plant_results info
                         | None => []
                         end) ps.

Definition planet_plant_results (data : game_data) (p : planet) : list plant_result :=
  plants_results data (plants (resources p)).

(** The default enumeration in the specification's words: for every planet,
    the offshore keys, then the results of its plants, then the minable keys. *)
Definition planet_inputs {num} (data : game_data) (resource_cost farming_cost offshore_cost : num)
    (p : planet) : list (input_spec num) :=
  map (offshore_entry offshore_cost) (offshore (resources p))
  ++ map (farming_entry farming_cost) (planet_plant_results data p)
  ++ map (resource_entry resource_cost) (resource (resources p)).

Definition default_inputs {num} (data : game_data) (resource_cost farming_cost offshore_cost : num)
    : list (input_spec num) :=
  flat_map (planet_inputs data resource_cost farming_cost offshore_cost) (data_planets data).

(** The number of different result items among the plants of a planet. *)
Definition distinct_plant_results (data : game_data) (p : planet) : nat :=
  length (remove_dups (map result_name (planet_plant_results data p))).

(** The number of different pairs of a plant of the planet and one of its
    result items. *)
Definition distinct_plant_result_pairs (data : game_data) (p : planet) : nat :=
  length (remove_dups
            (flat_map (fun plant => match plant_definition data plant with
                                    | Some info => map (fun r => (plant, result_name r))
                                                       (plant_results info)
                                    | None => []
                                    end)
                      (plants (resources p)))).

(** ** One round of each loop *)

Section Rounds.
Context {num : Type}.
Variable float : string -> option num.

(** The entry that one round of the loop of [parse_input_list] appends. *)
Definition item_round (q item : string) : result (input_spec num) :=
  '(item_key, item_cost_str) ← unpack2 (split "=" item);
  item_cost ← py_float float item_cost_str;
  Ok {| in_key := item_key; in_quality := q; in_resource := false; in_cost := item_cost |}.

(** One round of the loop of [parse_productivity_research_list]. *)
Definition research_round (item : string) (productivity_research : gmap string num)
    : result (gmap string num) :=
  '(item_key, item_prod_str) ← unpack2 (split "=" item);
  recipe_keys ← research_lookup item_key;
  recipe_keys_loop float item_prod_str recipe_keys productivity_research.

End Rounds.

(** ** A concrete instance, to run the model *)

Module Example.

(** A decimal number [mantissa / 10 ^ scale]. *)
Record dec : Type := { mantissa : Z; scale : nat }.

Definition digit (c : ascii) : option Z :=
  let n := nat_of_ascii c in
  if (48 <=? n)%nat && (n <=? 57)%nat then Some (Z.of_nat (n - 48)) else None.

Fixpoint digits (s : string) (acc : Z) : option Z :=
  match s with
  | EmptyString => Some acc
  | String c rest =>
      match digit c with
      | Some d => digits rest (10 * acc + d)%Z
      | None => None
      end
  end.

Definition unsigned (s : string) : option dec :=
  match split "." s with
  | [i] => if String.eqb i "" then None
           else m ← digits i 0%Z; Some {| mantissa := m; scale := 0 |}
  | [i; f] => if String.eqb i "" && String.eqb f "" then None
              else m ← digits (i +:+ f) 0%Z; Some {| mantissa := m; scale := String.length f |}
  | _ => None
  end.

(** A reading of the plain decimal literals, [-2.5] or [10] or [.5], as the
    decimal number they spell.  It is not Python's [float]: Python reads each
    of these literals too (and rounds it to a double), and it reads strings
    that this reading rejects, such as [1e3], [inf] or a literal between
    blanks.  It serves to run the model on plain decimals and on strings like
    [abc] that neither reads; no theorem depends on it. *)
Definition float (s : string) : option dec :=
  match s with
  | String "-" rest =>
      d ← unsigned rest; Some {| mantissa := - mantissa d; scale := scale d |}
  | String "+" rest => unsigned rest
  | _ => unsigned s
  end.

(** A small data set in the shape of [data/space-age-2.0.11.json]. *)
Definition data : game_data := {|
  data_planets := [
    {| resources := {| offshore := ["water"];
                       plants := ["tree-plant"];
                       resource := ["iron-ore"; "copper-ore"] |} |};
    {| resources := {| offshore := ["water"];
                       plants := ["yumako-tree"; "jellystem"];
                       resource := ["stone"] |} |} ];
  data_plants := [
    {| plant_key := "tree-plant"; plant_results := [ {| result_name := "wood" |} ] |};
    {| plant_key := "yumako-tree"; plant_results := [ {| result_name := "yumako" |} ] |};
    {| plant_key := "jellystem"; plant_results := [ {| result_name := "jellynut" |} ] |} ]
|}.

(** A planet with two plants that give the same item. *)
Definition data_two_trees : game_data := {|
  data_planets := [
    {| resources := {| offshore := []; plants := ["oak"; "birch"]; resource := [] |} |} ];
  data_plants := [
    {| plant_key := "oak"; plant_results := [ {| result_name := "wood" |} ] |};
    {| plant_key := "birch"; plant_results := [ {| result_name := "wood" |} ] |} ]
|}.

(** A planet that lists the same plant twice. *)
Definition data_plant_twice : game_data := {|
  data_planets := [
    {| resources := {| offshore := []; plants := ["oak"; "oak"]; resource := [] |} |} ];
  data_plants := [
    {| plant_key := "oak"; plant_results := [ {| result_name := "wood" |} ] |} ]
|}.

Definition one : dec := {| mantissa := 10; scale := 1 |}.
Definition tenth : dec := {| mantissa := 1; scale := 1 |}.

(** The arguments when no option is given on the command line. *)
Definition defaults : arguments dec := {|
  output_item := "electronic-circuit";
  output_amount := one;
  output_quality := "legendary";
  prod_module_tier := 3;
  quality_module_tier := 3;
  check_speed_modules := false;
  speed_module_tier := 3;
  module_quality := "legendary";
  prod_module_quality := None;
  quality_module_quality := None;
  speed_module_quality := None;
  building_quality := "legendary";
  max_quality_unlocked := "legendary";
  input_items := None;
  input_quality := "normal";
  input_resources := None;
  productivity_research := None;
  allow_byproducts := false;
  allowed_recipes := None;
  disallowed_recipes := None;
  allowed_crafting_machines := None;
  disallowed_crafting_machines := None;
  resource_cost := one;
  farming_cost := one;
  offshore_cost := tenth;
  module_cost := one;
  building_cost := one;
  output_csv := None;
  output_flow_chart := None;
  verbose := false
|}.

(** The defaults with other manual lists, research tokens or qualities. *)
Definition with_inputs (items resources : option (list string)) (a : arguments dec)
    : arguments dec :=
  {| output_item := output_item a; output_amount := output_amount a;
     output_quality := output_quality a; prod_module_tier := prod_module_tier a;
     quality_module_tier := quality_module_tier a;
     check_speed_modules := check_speed_modules a;
     speed_module_tier := speed_module_tier a; module_quality := module_quality a;
     prod_module_quality := prod_module_quality a;
     quality_module_quality := quality_module_quality a;
     speed_module_quality := speed_module_quality a;
     building_quality := building_quality a;
     max_quality_unlocked := max_quality_unlocked a;
     input_items := items; input_quality := input_quality a;
     input_resources := resources;
     productivity_research := productivity_research a;
     allow_byproducts := allow_byproducts a; allowed_recipes := allowed_recipes a;
     disallowed_recipes := disallowed_recipes a;
     allowed_crafting_machines := allowed_crafting_machines a;
     disallowed_crafting_machines := disallowed_crafting_machines a;
     resource_cost := resource_cost a; farming_cost := farming_cost a;
     offshore_cost := offshore_cost a; module_cost := module_cost a;
     building_cost := building_cost a; output_csv := output_csv a;
     output_flow_chart := output_flow_chart a; verbose := verbose a |}.

Definition with_research (tokens : option (list string)) (a : arguments dec)
    : arguments dec :=
  {| output_item := output_item a; output_amount := output_amount a;
     output_quality := output_quality a; prod_module_tier := prod_module_tier a;
     quality_module_tier := quality_module_tier a;
     check_speed_modules := check_speed_modules a;
     speed_module_tier := speed_module_tier a; module_quality := module_quality a;
     prod_module_quality := prod_module_quality a;
     quality_module_quality := quality_module_quality a;
     speed_module_quality := speed_module_quality a;
     building_quality := building_quality a;
     max_quality_unlocked := max_quality_unlocked a;
     input_items := input_items a; input_quality := input_quality a;
     input_resources := input_resources a;
     productivity_research := tokens;
     allow_byproducts := allow_byproducts a; allowed_recipes := allowed_recipes a;
     disallowed_recipes := disallowed_recipes a;
     allowed_crafting_machines := allowed_crafting_machines a;
     disallowed_crafting_machines := disallowed_crafting_machines a;
     resource_cost := resource_cost a; farming_cost := farming_cost a;
     offshore_cost := offshore_cost a; module_cost := module_cost a;
     building_cost := building_cost a; output_csv := output_csv a;
     output_flow_chart := output_flow_chart a; verbose := verbose a |}.

Definition with_qualities (shared : string) (prod quality speed : option string)
    (a : arguments dec) : arguments dec :=
  {| output_item := output_item a; output_amount := output_amount a;
     output_quality := output_quality a; prod_module_tier := prod_module_tier a;
     quality_module_tier := quality_module_tier a;
     check_speed_modules := check_speed_modules a;
     speed_module_tier := speed_module_tier a; module_quality := shared;
     prod_module_quality := prod;
     quality_module_quality := quality;
     speed_module_quality := speed;
     building_quality := building_quality a;
     max_quality_unlocked := max_quality_unlocked a;
     input_items := input_items a; input_quality := input_quality a;
     input_resources := input_resources a;
     productivity_research := productivity_research a;
     allow_byproducts := allow_byproducts a; allowed_recipes := allowed_recipes a;
     disallowed_recipes := disallowed_recipes a;
     allowed_crafting_machines := allowed_crafting_machines a;
     disallowed_crafting_machines := disallowed_crafting_machines a;
     resource_cost := resource_cost a; farming_cost := farming_cost a;
     offshore_cost := offshore_cost a; module_cost := module_cost a;
     building_cost := building_cost a; output_csv := output_csv a;
     output_flow_chart := output_flow_chart a; verbose := verbose a |}.

End Example.

(** ** The exception of a token *)

Section TokenErrors.
Context {num : Type}.
Variable float : string -> option num.

(** The exception that a token raises in one round of the manual parsers,
    if it raises one: the unpacking of the parts comes first, then [float]
    on the second part. *)
Definition token_error (item : string) : option exn :=
  match occurrences "=" item with
  | 0 => Some (ValueError (NotEnoughValues 1))
  | 1 => match float (after_first "=" item) with
         | Some _ => None
         | None => Some (ValueError (NotAFloat (after_first "=" item)))
         end
  | _ => Some (ValueError TooManyValues)
  end.

(** The same for one round of the research expansion: the unpacking, then
    the subscript of the table, then [float]. *)
Definition research_token_error (item : string) : option exn :=
  match occurrences "=" item with
  | 0 => Some (ValueError (NotEnoughValues 1))
  | 1 => match RESEARCH_PRODUCTIVITY_ITEM_RECIPE_MAP !! before_first "=" item with
         | None => Some (KeyError (before_first "=" item))
         | Some _ =>
             match float (after_first "=" item) with
             | Some _ => None
             | None => Some (ValueError (NotAFloat (after_first "=" item)))
             end
         end
  | _ => Some (ValueError TooManyValues)
  end.

End TokenErrors.

(** More data and arguments to run the model. *)
Module MoreExamples.

(** A planet lists a plant that the data does not define. *)
Definition data_dangling : game_data := {|
  data_planets := [
    {| resources := {| offshore := ["water"]; plants := ["ghost-plant"]; resource := [] |} |} ];
  data_plants := [
    {| plant_key := "tree-plant"; plant_results := [ {| result_name := "wood" |} ] |} ]
|}.

(** A second definition of a plant that [Example.data] defines. *)
Definition more_plants : list plant_info :=
  [ {| plant_key := "tree-plant"; plant_results := [ {| result_name := "charcoal" |} ] |} ].

(** Arguments with other lists of allowed and disallowed recipes. *)
Definition with_recipes (allowed disallowed : option (list string))
    (a : arguments Example.dec) : arguments Example.dec :=
  {| output_item := output_item a; output_amount := output_amount a;
     output_quality := output_quality a; prod_module_tier := prod_module_tier a;
     quality_module_tier := quality_module_tier a;
     check_speed_modules := check_speed_modules a;
     speed_module_tier := speed_module_tier a; module_quality := module_quality a;
     prod_module_quality := prod_module_quality a;
     quality_module_quality := quality_module_quality a;
     speed_module_quality := speed_module_quality a;
     building_quality := building_quality a;
     max_quality_unlocked := max_quality_unlocked a;
     input_items := input_items a; input_quality := input_quality a;
     input_resources := input_resources a;
     productivity_research := productivity_research a;
     allow_byproducts := allow_byproducts a; allowed_recipes := allowed;
     disallowed_recipes := disallowed;
     allowed_crafting_machines := allowed_crafting_machines a;
     disallowed_crafting_machines := disallowed_crafting_machines a;
     resource_cost := resource_cost a; farming_cost := farming_cost a;
     offshore_cost := offshore_cost a; module_cost := module_cost a;
     building_cost := building_cost a; output_csv := output_csv a;
     output_flow_chart := output_flow_chart a; verbose := verbose a |}.

(** Arguments with another input quality. *)
Definition with_input_quality (q : string) (a : arguments Example.dec)
    : arguments Example.dec :=
  {| output_item := output_item a; output_amount := output_amount a;
     output_quality := output_quality a; prod_module_tier := prod_module_tier a;
     quality_module_tier := quality_module_tier a;
     check_speed_modules := check_speed_modules a;
     speed_module_tier := speed_module_tier a; module_quality := module_quality a;
     prod_module_quality := prod_module_quality a;
     quality_module_quality := quality_module_quality a;
     speed_module_quality := speed_module_quality a;
     building_quality := building_quality a;
     max_quality_unlocked := max_quality_unlocked a;
     input_items := input_items a; input_quality := q;
     input_resources := input_resources a;
     productivity_research := productivity_research a;
     allow_byproducts := allow_byproducts a; allowed_recipes := allowed_recipes a;
     disallowed_recipes := disallowed_recipes a;
     allowed_crafting_machines := allowed_crafting_machines a;
     disallowed_crafting_machines := disallowed_crafting_machines a;
     resource_cost := resource_cost a; farming_cost := farming_cost a;
     offshore_cost := offshore_cost a; module_cost := module_cost a;
     building_cost := building_cost a; output_csv := output_csv a;
     output_flow_chart := output_flow_chart a; verbose := verbose a |}.

End MoreExamples.

(** * Properties *)

(** ** [split] and the segments of a token *)

Lemma split_cons_eq (sep c : ascii) (rest : string) :
  Ascii.eqb c sep = true → split sep (String c rest) = EmptyString :: split sep rest.
Proof. intros H. simpl. by rewrite H. Qed.

Lemma split_not_nil (sep : ascii) (s : string) : split sep s ≠ [].
Proof.
  destruct s as [|c rest]; simpl; [done|].
  destruct (Ascii.eqb c sep); [done|].
  by destruct (split sep rest).
Qed.

Lemma split_length (sep : ascii) (s : string) :
  length (split sep s) = S (occurrences sep s).
Proof.
  induction s as [|c rest IH]; simpl; [done|].
  destruct (Ascii.eqb c sep); simpl; [by rewrite IH|].
  destruct (split sep rest) as [|part parts] eqn:E; [by apply split_not_nil in E|].
  by rewrite <- IH.
Qed.

Lemma split_one (sep : ascii) (s part : string) :
  split sep s = [part] ↔ occurrences sep s = 0 ∧ part = s.
Proof.
  revert part. induction s as [|c rest IH]; intros part; simpl.
  - split; [by intros [= <-] | by intros [_ ->]].
  - destruct (Ascii.eqb c sep); simpl.
    + split; [|by intros [? _]].
      intros [= _ E]. by apply split_not_nil in E.
    + destruct (split sep rest) as [|h t] eqn:E; [by apply split_not_nil in E|].
      split.
      * intros [= <- ->]. destruct (proj1 (IH h) eq_refl) as [? ->]. done.
      * intros [Hocc ->]. destruct (IH rest) as [_ IH2].
        specialize (IH2 (conj Hocc eq_refl)). by injection IH2 as -> ->.
Qed.

Lemma split_two (sep : ascii) (s k c : string) :
  split sep s = [k; c] ↔
  occurrences sep s = 1 ∧ k = before_first sep s ∧ c = after_first sep s.
Proof.
  revert k. induction s as [|a rest IH]; intros k; simpl.
  - split; [done | by intros [? _]].
  - destruct (Ascii.eqb a sep); simpl.
    + split.
      * intros [= <- E]. apply split_one in E as [? ->]. auto.
      * intros (Hocc & -> & ->). f_equal. apply split_one. split; [lia | done].
    + destruct (split sep rest) as [|h t] eqn:E; [by apply split_not_nil in E|].
      split.
      * intros [= <- ->]. destruct (proj1 (IH h) eq_refl) as (? & <- & <-). done.
      * intros (Hocc & -> & ->). destruct (IH (before_first sep rest)) as [_ IH2].
        specialize (IH2 (conj Hocc (conj eq_refl eq_refl))).
        by injection IH2 as -> ->.
Qed.

(** A token with a separator is its two segments around the first one. *)
Lemma segments_join (sep : ascii) (s : string) :
  occurrences sep s ≠ 0 →
  s = before_first sep s +:+ String sep (after_first sep s).
Proof.
  induction s as [|a rest IH]; simpl; [done|].
  destruct (Ascii.eqb_spec a sep) as [->|Hne]; simpl; [done|].
  intros H. rewrite (IH H) at 1. reflexivity.
Qed.

Lemma before_first_clean (sep : ascii) (s : string) :
  occurrences sep (before_first sep s) = 0.
Proof.
  induction s as [|a rest IH]; simpl; [done|].
  destruct (Ascii.eqb a sep) eqn:E; simpl; [done|]. by rewrite E.
Qed.

Lemma unpack2_Ok (parts : list string) (k c : string) :
  unpack2 parts = Ok (k, c) ↔ parts = [k; c].
Proof.
  destruct parts as [|a [|b [|? ?]]]; simpl; split; try done.
  - by intros [= -> ->].
  - by intros [= -> ->].
Qed.

Lemma unpack2_ValueError (parts : list string) (e : exn) :
  unpack2 parts = Raise e → is_ValueError e = true.
Proof. destruct parts as [|a [|b [|? ?]]]; simpl; by intros [= <-]. Qed.

Lemma unpack2_split_Ok (item k c : string) :
  unpack2 (split "=" item) = Ok (k, c) ↔
  occurrences "=" item = 1 ∧ k = before_first "=" item ∧ c = after_first "=" item.
Proof. by rewrite unpack2_Ok, split_two. Qed.

Lemma unpack2_split_one (item : string) :
  occurrences "=" item = 1 →
  unpack2 (split "=" item) = Ok (before_first "=" item, after_first "=" item).
Proof. intros H. by apply unpack2_split_Ok. Qed.

Lemma unpack2_split_Raise (item : string) :
  occurrences "=" item ≠ 1 ↔ ∃ w, unpack2 (split "=" item) = Raise (ValueError w).
Proof.
  split.
  - intros Hocc. destruct (unpack2 (split "=" item)) as [[k c]|e] eqn:E.
    + apply unpack2_split_Ok in E as [? _]. done.
    + pose proof (unpack2_ValueError _ _ E) as He. destruct e; try done. eauto.
  - intros [w Hw] Hocc. by rewrite unpack2_split_one in Hw.
Qed.

Lemma bind_Ok {A B} (f : A → result B) (a : A) : Ok a ≫= f = f a.
Proof. reflexivity. Qed.

Lemma fmap_Ok_inv {A B} (f : A → B) (r : result A) (b : B) :
  f <$> r = Ok b ↔ ∃ a, r = Ok a ∧ b = f a.
Proof.
  destruct r as [a|e]; simpl; split.
  - intros [= <-]. eauto.
  - by intros (? & [= <-] & ->).
  - done.
  - by intros (? & ? & _).
Qed.

Lemma fmap_Raise_inv {A B} (f : A → B) (r : result A) (e : exn) :
  f <$> r = Raise e ↔ r = Raise e.
Proof. destruct r; simpl; split; by intros [= <-]. Qed.

Section Properties.
Context {num : Type}.
Variable float : string -> option num.

(** ** The manual token parsers *)

Lemma py_float_Ok (s : string) (x : num) : py_float float s = Ok x ↔ float s = Some x.
Proof. unfold py_float. destruct (float s); split; by intros [= <-]. Qed.

Lemma py_float_Raise (s : string) (e : exn) :
  py_float float s = Raise e ↔ float s = None ∧ e = ValueError (NotAFloat s).
Proof.
  unfold py_float. destruct (float s); split; try done.
  - by intros [? _].
  - by intros [= <-].
  - by intros [_ ->].
Qed.

Lemma item_round_Ok (q item : string) (i : input_spec num) :
  item_round float q item = Ok i ↔ item_entry_of float q item i.
Proof.
  unfold item_round, item_entry_of.
  destruct (unpack2 (split "=" item)) as [[k c]|e] eqn:E; simpl.
  - apply unpack2_split_Ok in E as (Hocc & -> & ->).
    destruct (py_float float _) as [v|e] eqn:F; simpl.
    + apply py_float_Ok in F. split.
      * intros [= <-]. eauto.
      * intros (_ & v' & Hv & ->). congruence.
    + apply py_float_Raise in F as [F _]. split; [done|].
      intros (_ & v' & Hv & _). congruence.
  - split; [done|]. intros [Hocc _]. by rewrite unpack2_split_one in E.
Qed.

Lemma item_round_Raise (q item : string) :
  (∃ e, item_round float q item = Raise e) ↔
  occurrences "=" item ≠ 1 ∨ float (after_first "=" item) = None.
Proof.
  destruct (item_round float q item) as [i|e] eqn:E.
  - apply item_round_Ok in E as (Hocc & v & Hv & _). split.
    + by intros [? ?].
    + intros [?|?]; congruence.
  - split; [intros _ | eauto].
    destruct (decide (occurrences "=" item = 1)) as [Hocc|]; [right | by left].
    unfold item_round in E. rewrite unpack2_split_one in E by done. simpl in E.
    destruct (py_float float _) eqn:F; [done|]. by apply py_float_Raise in F as [? _].
Qed.

Lemma item_round_ValueError (q item : string) (e : exn) :
  item_round float q item = Raise e → is_ValueError e = true.
Proof.
  unfold item_round.
  destruct (unpack2 (split "=" item)) as [[k c]|e'] eqn:E; simpl.
  - destruct (py_float float c) eqn:F; simpl; [done|].
    apply py_float_Raise in F as [_ ->]. by intros [= <-].
  - intros [= <-]. by eapply unpack2_ValueError.
Qed.

Lemma parse_input_loop_round (q item : string) (items : list string)
    (inputs : list (input_spec num)) :
  parse_input_loop float q (item :: items) inputs =
  i ← item_round float q item; parse_input_loop float q items (inputs ++ [i]).
Proof.
  simpl. unfold item_round.
  destruct (unpack2 (split "=" item)) as [[k c]|e]; simpl; [|done].
  by destruct (py_float float c).
Qed.

Lemma parse_input_loop_acc (q : string) (items : list string)
    (inputs : list (input_spec num)) :
  parse_input_loop float q items inputs =
  (inputs ++.) <$> parse_input_loop float q items [].
Proof.
  revert inputs. induction items as [|item items IH]; intros inputs.
  - simpl. by rewrite app_nil_r.
  - rewrite !parse_input_loop_round.
    destruct (item_round float q item) as [i|e]; simpl; [|done].
    rewrite (IH (inputs ++ [i])), (IH [i]).
    destruct (parse_input_loop float q items []); simpl; [|done].
    by rewrite <- app_assoc.
Qed.

Lemma parse_input_list_cons (q item : string) (items : list string) :
  parse_input_list float (item :: items) q =
  i ← item_round float q item; (i ::.) <$> parse_input_list float items q.
Proof.
  unfold parse_input_list. rewrite parse_input_loop_round.
  destruct (item_round float q item) as [i|e]; simpl; [|done].
  by rewrite parse_input_loop_acc.
Qed.

Lemma parse_input_list_Ok (q : string) (items : list string)
    (inputs : list (input_spec num)) :
  parse_input_list float items q = Ok inputs ↔
  Forall2 (item_entry_of float q) items inputs.
Proof.
  revert inputs. induction items as [|item items IH]; intros inputs.
  - split.
    + intros [= <-]. constructor.
    + intros H. by inversion H.
  - rewrite parse_input_list_cons. split.
    + destruct (item_round float q item) as [i|e] eqn:E; simpl; [|done].
      intros (rest & Hrest & ->)%fmap_Ok_inv. constructor.
      * by apply item_round_Ok.
      * by apply IH.
    + intros H. inversion H as [|? i ? rest Hi Hrest]; subst.
      apply item_round_Ok in Hi as ->. simpl.
      apply IH in Hrest as ->. done.
Qed.

Lemma parse_input_list_Raise (q : string) (items : list string) :
  (∃ e, parse_input_list float items q = Raise e) ↔
  Exists (fun item => occurrences "=" item ≠ 1 ∨ float (after_first "=" item) = None) items.
Proof.
  induction items as [|item items IH].
  - split; [by intros [? ?] | by intros ?%Exists_nil].
  - rewrite parse_input_list_cons, Exists_cons, <- IH, <- (item_round_Raise q).
    destruct (item_round float q item) as [i|e]; simpl.
    + split.
      * intros [e He%fmap_Raise_inv]. eauto.
      * intros [[? ?]|[e He]]; [done|]. exists e. by apply fmap_Raise_inv.
    + split; eauto.
Qed.

Lemma parse_input_list_ValueError (q : string) (items : list string) (e : exn) :
  parse_input_list float items q = Raise e → is_ValueError e = true.
Proof.
  induction items as [|item items IH]; [done|].
  rewrite parse_input_list_cons.
  destruct (item_round float q item) as [i|e'] eqn:E; simpl.
  - intros ?%fmap_Raise_inv. auto.
  - intros [= <-]. by eapply item_round_ValueError.
Qed.

Lemma parse_input_list_total (q : string) (items : list string) :
  Forall (well_formed float) items →
  ∃ inputs, parse_input_list float items q = Ok inputs.
Proof.
  intros Hwf. destruct (parse_input_list float items q) as [inputs|e] eqn:E; [eauto|].
  assert (Hex : ∃ e, parse_input_list float items q = Raise e) by eauto.
  apply parse_input_list_Raise, Exists_exists in Hex as (item & Hin & Hbad).
  rewrite Forall_forall in Hwf. destruct (Hwf item Hin) as [Hocc [v Hv]].
  destruct Hbad; congruence.
Qed.

(** The resource variant, read off the item variant: another quality and flag. *)
Lemma parse_resources_loop_as_items (q : string) (items : list string)
    (inputs : list (input_spec num)) :
  parse_resources_loop float items (map as_resource inputs) =
  map as_resource <$> parse_input_loop float q items inputs.
Proof.
  revert inputs. induction items as [|item items IH]; intros inputs; simpl; [done|].
  destruct (unpack2 (split "=" item)) as [[k c]|e]; simpl; [|done].
  destruct (py_float float c) as [v|e]; simpl; [|done].
  rewrite <- IH. by rewrite map_app.
Qed.

Lemma parse_resources_list_as_items (q : string) (items : list string) :
  parse_resources_list float items = map as_resource <$> parse_input_list float items q.
Proof. apply (parse_resources_loop_as_items q items []). Qed.

Lemma as_resource_entry (q item : string) (i : input_spec num) :
  item_entry_of float q item i → resource_entry_of float item (as_resource i).
Proof. intros (Hocc & v & Hv & ->). split; [done|]. by exists v. Qed.

Lemma resource_entry_as_resource (q item : string) (r : input_spec num) :
  resource_entry_of float item r →
  ∃ i, item_entry_of float q item i ∧ r = as_resource i.
Proof.
  intros (Hocc & v & Hv & ->).
  eexists {| in_cost := v |}. split; [split; [done|]; by exists v | done].
Qed.

Lemma parse_resources_list_Ok (items : list string) (inputs : list (input_spec num)) :
  parse_resources_list float items = Ok inputs ↔
  Forall2 (resource_entry_of float) items inputs.
Proof.
  rewrite (parse_resources_list_as_items "normal"), fmap_Ok_inv. split.
  - intros (its & Hits%parse_input_list_Ok & ->).
    induction Hits; simpl; constructor; eauto using as_resource_entry.
  - intros H. induction H as [|item r items rs Hr _ (its & Hits & ->)].
    + exists []. split; [by apply parse_input_list_Ok | done].
    + destruct (resource_entry_as_resource "normal" _ _ Hr) as (i & Hi & ->).
      exists (i :: its). split; [|done].
      apply parse_input_list_Ok. constructor; [done|]. by apply parse_input_list_Ok.
Qed.

Lemma parse_resources_list_total (items : list string) :
  Forall (well_formed float) items →
  ∃ inputs, parse_resources_list float items = Ok inputs.
Proof.
  intros [its Hits]%(parse_input_list_total "normal").
  rewrite (parse_resources_list_as_items "normal"), Hits. eauto.
Qed.

(** ** The default enumeration *)

Lemma offshore_loop_map (oc : num) (keys : list string) (inputs : list (input_spec num)) :
  offshore_loop oc keys inputs = inputs ++ map (offshore_entry oc) keys.
Proof.
  revert inputs. induction keys as [|k keys IH]; intros inputs; simpl.
  - by rewrite app_nil_r.
  - by rewrite IH, <- app_assoc.
Qed.

Lemma results_loop_map (fc : num) (results : list plant_result)
    (inputs : list (input_spec num)) :
  results_loop fc results inputs = inputs ++ map (farming_entry fc) results.
Proof.
  revert inputs. induction results as [|r results IH]; intros inputs; simpl.
  - by rewrite app_nil_r.
  - by rewrite IH, <- app_assoc.
Qed.

Lemma resource_loop_map (rc : num) (keys : list string) (inputs : list (input_spec num)) :
  resource_loop rc keys inputs = inputs ++ map (resource_entry rc) keys.
Proof.
  revert inputs. induction keys as [|k keys IH]; intros inputs; simpl.
  - by rewrite app_nil_r.
  - by rewrite IH, <- app_assoc.
Qed.

Lemma find_plant_definition (data : game_data) (plant : string) :
  find_plant data plant =
  match plant_definition data plant with
  | Some info => Ok info
  | None => Raise IndexError
  end.
Proof.
  unfold find_plant, plant_definition.
  by destruct (filter _ (data_plants data)).
Qed.

Lemma plants_loop_defined (data : game_data) (fc : num) (ps : list string)
    (inputs : list (input_spec num)) :
  Forall (fun plant => is_Some (plant_definition data plant)) ps →
  plants_loop data fc ps inputs =
  Ok (inputs ++ map (farming_entry fc) (plants_results data ps)).
Proof.
  intros H. revert inputs. induction H as [|plant ps [info Hinfo] _ IH]; intros inputs; simpl.
  - by rewrite app_nil_r.
  - rewrite find_plant_definition, Hinfo. simpl.
    by rewrite IH, results_loop_map, map_app, <- app_assoc.
Qed.

Lemma plants_loop_undefined (data : game_data) (fc : num) (ps : list string)
    (inputs : list (input_spec num)) :
  ¬ Forall (fun plant => is_Some (plant_definition data plant)) ps →
  plants_loop data fc ps inputs = Raise IndexError.
Proof.
  revert inputs. induction ps as [|plant ps IH]; intros inputs H; simpl.
  - destruct H. constructor.
  - rewrite find_plant_definition.
    destruct (plant_definition data plant) as [info|] eqn:E; simpl; [|done].
    apply IH. intros Hps. apply H. constructor; [by rewrite E | done].
Qed.

Lemma planets_loop_defined (data : game_data) (rc fc oc : num) (ps : list planet)
    (inputs : list (input_spec num)) :
  Forall (fun p => Forall (fun plant => is_Some (plant_definition data plant))
                          (plants (resources p))) ps →
  planets_loop data rc fc oc ps inputs =
  Ok (inputs ++ flat_map (planet_inputs data rc fc oc) ps).
Proof.
  intros H. revert inputs. induction H as [|p ps Hp _ IH]; intros inputs; simpl.
  - by rewrite app_nil_r.
  - rewrite (plants_loop_defined _ _ _ _ Hp). simpl.
    rewrite IH, resource_loop_map, offshore_loop_map. unfold planet_inputs.
    f_equal. by rewrite <- !app_assoc.
Qed.

Lemma planets_loop_undefined (data : game_data) (rc fc oc : num) (ps : list planet)
    (inputs : list (input_spec num)) :
  ¬ Forall (fun p => Forall (fun plant => is_Some (plant_definition data plant))
                            (plants (resources p))) ps →
  planets_loop data rc fc oc ps inputs = Raise IndexError.
Proof.
  revert inputs. induction ps as [|p ps IH]; intros inputs H; simpl.
  - destruct H. constructor.
  - destruct (decide (Forall (fun plant => is_Some (plant_definition data plant))
                             (plants (resources p)))) as [Hp|Hp].
    + rewrite (plants_loop_defined _ _ _ _ Hp). simpl.
      apply IH. intros Hps. apply H. by constructor.
    + by rewrite (plants_loop_undefined _ _ _ _ Hp).
Qed.

Lemma setup_inputs_defined (data : game_data) (rc fc oc : num) :
  plants_defined data →
  setup_inputs data rc fc oc = Ok (default_inputs data rc fc oc).
Proof. intros H. unfold setup_inputs. by rewrite planets_loop_defined. Qed.

(** Without a definition for a listed plant the subscript [[0]] raises. *)
Lemma setup_inputs_undefined (data : game_data) (rc fc oc : num) :
  ¬ plants_defined data → setup_inputs data rc fc oc = Raise IndexError.
Proof. intros H. unfold setup_inputs. by rewrite planets_loop_undefined. Qed.

Lemma planet_inputs_length (data : game_data) (rc fc oc : num) (p : planet) :
  length (planet_inputs data rc fc oc p) =
  length (offshore (resources p)) + length (planet_plant_results data p)
  + length (resource (resources p)).
Proof. unfold planet_inputs. rewrite !length_app, !length_map. lia. Qed.

Lemma default_inputs_length (data : game_data) (rc fc oc : num) :
  length (default_inputs data rc fc oc) =
  sum_list (map (fun p => length (offshore (resources p))
                          + length (planet_plant_results data p)
                          + length (resource (resources p)))
                (data_planets data)).
Proof.
  unfold default_inputs. induction (data_planets data) as [|p ps IH]; simpl; [done|].
  by rewrite length_app, IH, planet_inputs_length.
Qed.

(** ** The research expansion *)

Lemma recipe_keys_loop_Ok (s : string) (v : num) (rs : list string) (m : gmap string num) :
  float s = Some v →
  recipe_keys_loop float s rs m = Ok (foldl (fun m r => <[r := v]> m) m rs).
Proof.
  intros Hv. revert m. induction rs as [|r rs IH]; intros m; simpl; [done|].
  apply py_float_Ok in Hv. rewrite Hv. simpl. apply IH.
Qed.

Lemma lookup_foldl_insert (v : num) (rs : list string) (m : gmap string num) (r : string) :
  foldl (fun m r => <[r := v]> m) m rs !! r =
  if decide (r ∈ rs) then Some v else m !! r.
Proof.
  revert m. induction rs as [|a rs IH]; intros m.
  - rewrite decide_False; [done | apply not_elem_of_nil].
  - simpl. rewrite IH. destruct (decide (r ∈ rs)) as [Hin|Hin].
    + rewrite decide_True; [done | by right].
    + destruct (decide (a = r)) as [->|Hne].
      * rewrite lookup_insert_eq, decide_True; [done | by left].
      * rewrite lookup_insert_ne by done.
        rewrite decide_False; [done|]. intros [?|?]%elem_of_cons; congruence.
Qed.

Lemma research_loop_round (item : string) (items : list string) (m : gmap string num) :
  research_loop float (item :: items) m =
  m' ← research_round float item m; research_loop float items m'.
Proof.
  simpl. unfold research_round.
  destruct (unpack2 (split "=" item)) as [[k s]|e]; simpl; [|done].
  by destruct (research_lookup k).
Qed.

Lemma research_round_token (item k : string) (rs : list string) (v : num)
    (m : gmap string num) :
  research_token float item k rs v →
  research_round float item m = Ok (foldl (fun m r => <[r := v]> m) m rs).
Proof.
  intros (Hocc & -> & Hrs & Hv). unfold research_round.
  rewrite unpack2_split_one by done. simpl.
  unfold research_lookup. rewrite Hrs. simpl.
  by apply recipe_keys_loop_Ok.
Qed.

Lemma research_round_unknown (item : string) (m : gmap string num) :
  unknown_research_key item →
  research_round float item m = Raise (KeyError (before_first "=" item)).
Proof.
  intros [Hocc Hnone]. unfold research_round.
  rewrite unpack2_split_one by done. simpl.
  unfold research_lookup. by rewrite Hnone.
Qed.

Lemma research_loop_app (pre post : list string) (m : gmap string num) :
  research_loop float (pre ++ post) m =
  m' ← research_loop float pre m; research_loop float post m'.
Proof.
  revert m. induction pre as [|item pre IH]; intros m; [done|].
  rewrite <- app_comm_cons, !research_loop_round.
  destruct (research_round float item m) as [m'|e]; simpl; [apply IH | done].
Qed.

Lemma research_loop_tokens (items : list string)
    (toks : list (string * list string * num)) (m : gmap string num) :
  research_tokens float items toks →
  ∃ m', research_loop float items m = Ok m' ∧
        ∀ r, Forall (fun t => r ∉ t.1.2) toks → m' !! r = m !! r.
Proof.
  intros H. revert m. induction H as [|item [[k rs] v] items toks Ht _ IH]; intros m.
  - exists m. split; [done | auto].
  - rewrite research_loop_round, (research_round_token _ _ _ _ _ Ht). simpl.
    destruct (IH (foldl (fun m r => <[r := v]> m) m rs)) as (m' & -> & Hm').
    exists m'. split; [done|]. intros r Hr. inversion Hr as [|? ? Hrs Hrest]; subst.
    rewrite (Hm' r Hrest), lookup_foldl_insert. by rewrite decide_False.
Qed.

Lemma research_loop_last_writer (items : list string)
    (pre post : list (string * list string * num)) (k : string) (rs : list string)
    (v : num) (r : string) (m : gmap string num) :
  research_tokens float items (pre ++ (k, rs, v) :: post) →
  r ∈ rs → Forall (fun t => r ∉ t.1.2) post →
  ∃ m', research_loop float items m = Ok m' ∧ m' !! r = Some v.
Proof.
  intros H Hr Hpost.
  apply Forall2_app_inv_r in H as (ipre & irest & Hpre & Hrest & ->).
  inversion Hrest as [|item ? ipost ? Ht Hipost]; subst.
  rewrite research_loop_app.
  destruct (research_loop_tokens _ _ m Hpre) as (m1 & -> & _). rewrite bind_Ok.
  rewrite research_loop_round, (research_round_token _ _ _ _ _ Ht). simpl.
  destruct (research_loop_tokens _ _ (foldl (fun m r => <[r := v]> m) m1 rs) Hipost)
    as (m3 & -> & Hm3).
  exists m3. split; [done|].
  rewrite (Hm3 r Hpost), lookup_foldl_insert. by rewrite decide_True.
Qed.

Lemma research_loop_unknown (items : list string) (m : gmap string num) :
  Exists unknown_research_key items → ∃ e, research_loop float items m = Raise e.
Proof.
  intros H. revert m. induction H as [item items Hunk | item items _ IH]; intros m.
  - rewrite research_loop_round, research_round_unknown by done. eauto.
  - rewrite research_loop_round.
    destruct (research_round float item m) as [m'|e]; simpl; [apply IH | eauto].
Qed.

Lemma research_loop_first_unknown (pre post : list string)
    (toks : list (string * list string * num)) (item : string) (m : gmap string num) :
  research_tokens float pre toks → unknown_research_key item →
  research_loop float (pre ++ item :: post) m = Raise (KeyError (before_first "=" item)).
Proof.
  intros Hpre Hunk. rewrite research_loop_app.
  destruct (research_loop_tokens _ _ m Hpre) as (m1 & -> & _). rewrite bind_Ok.
  by rewrite research_loop_round, research_round_unknown.
Qed.

(** ** [main] *)

Lemma main_inputs_default (data : game_data) (args : arguments num) :
  input_items args = None → input_resources args = None →
  main_inputs float data args =
  setup_inputs data (resource_cost args) (farming_cost args) (offshore_cost args).
Proof. intros Hi Hr. unfold main_inputs. by rewrite Hi, Hr. Qed.

Lemma main_inputs_manual (data : game_data) (args : arguments num) :
  input_items args ≠ None ∨ input_resources args ≠ None →
  main_inputs float data args =
  its ← manual_items float args; rs ← manual_resources float args; Ok (its ++ rs).
Proof.
  intros H. unfold main_inputs, manual_items, manual_resources.
  destruct (input_items args) as [items|], (input_resources args) as [resources|];
    simpl; try (by destruct H).
  - by destruct (parse_input_list float items (input_quality args)).
  - destruct (parse_input_list float items (input_quality args)); simpl; [|done].
    by rewrite app_nil_r.
Qed.

Lemma main_Raise_inputs (data : game_data) (args : arguments num) (e : exn) :
  main_inputs float data args = Raise e → main float data args = Raise e.
Proof. intros H. unfold main. by rewrite H. Qed.

Lemma main_Raise_research (data : game_data) (args : arguments num) (e : exn) :
  main_productivity_research float args = Raise e →
  ∃ e', main float data args = Raise e'.
Proof.
  intros H. unfold main. destruct (main_inputs float data args); simpl; [|eauto].
  rewrite H. eauto.
Qed.

Lemma main_Ok_inv (data : game_data) (args : arguments num) (call : solver_call num) :
  main float data args = Ok call →
  main_inputs float data args = Ok (cfg_inputs (call_config call)) ∧
  main_productivity_research float args = Ok (cfg_productivity_research (call_config call)) ∧
  cfg_quality_module_quality (call_config call)
    = py_or (quality_module_quality args) (module_quality args) ∧
  cfg_prod_module_quality (call_config call)
    = py_or (prod_module_quality args) (module_quality args) ∧
  cfg_speed_module_quality (call_config call)
    = py_or (speed_module_quality args) (module_quality args) ∧
  cfg_building_quality (call_config call) = building_quality args ∧
  cfg_max_quality_unlocked (call_config call) = max_quality_unlocked args.
Proof.
  unfold main. destruct (main_inputs float data args) as [inputs|]; simpl; [|done].
  destruct (main_productivity_research float args) as [pr|]; simpl; [|done].
  by intros [= <-].
Qed.

Lemma main_runs (data : game_data) (args : arguments num)
    (inputs : list (input_spec num)) (pr : gmap string num) :
  main_inputs float data args = Ok inputs →
  main_productivity_research float args = Ok pr →
  ∃ call, main float data args = Ok call ∧ cfg_inputs (call_config call) = inputs ∧
          cfg_productivity_research (call_config call) = pr.
Proof. intros Hi Hp. unfold main. rewrite Hi, Hp. simpl. eauto. Qed.

Lemma manual_items_Ok (args : arguments num) (its : list (input_spec num)) :
  manual_items float args = Ok its ↔
  match input_items args with
  | Some items => Forall2 (item_entry_of float (input_quality args)) items its
  | None => its = []
  end.
Proof.
  unfold manual_items. destruct (input_items args) as [items|].
  - apply parse_input_list_Ok.
  - split; [by intros [= <-] | by intros ->].
Qed.

Lemma manual_resources_Ok (args : arguments num) (rs : list (input_spec num)) :
  manual_resources float args = Ok rs ↔
  match input_resources args with
  | Some resources => Forall2 (resource_entry_of float) resources rs
  | None => rs = []
  end.
Proof.
  unfold manual_resources. destruct (input_resources args) as [resources|].
  - apply parse_resources_list_Ok.
  - split; [by intros [= <-] | by intros ->].
Qed.

Lemma main_inputs_manual_Ok (data : game_data) (args : arguments num)
    (inputs : list (input_spec num)) :
  input_items args ≠ None ∨ input_resources args ≠ None →
  main_inputs float data args = Ok inputs ↔
  ∃ its rs, manual_items float args = Ok its ∧ manual_resources float args = Ok rs ∧
            inputs = its ++ rs.
Proof.
  intros H. rewrite (main_inputs_manual _ _ H).
  destruct (manual_items float args) as [its|e]; simpl.
  - destruct (manual_resources float args) as [rs|e]; simpl.
    + split; [intros [= <-]; eauto | by intros (? & ? & [= <-] & [= <-] & ->)].
    + split; [done | by intros (? & ? & _ & ? & _)].
  - split; [done | by intros (? & ? & ? & _)].
Qed.

(** ** The claims *)

(** C1.  The choice of the inputs is all or nothing.  When the caller
    supplies neither manual list, the inputs are what [setup_inputs] gives
    for the three cost parameters (and its failure, if it fails).  When the
    caller supplies either list, the inputs are exactly the entries of the
    item tokens followed by the entries of the resource tokens, a list that
    was not supplied giving none; nothing is taken from the default
    enumeration, never a merge of the two: the inputs are the same whatever
    the game data and the cost parameters.  The inputs of the configuration
    that [main] passes to the solver are these. *)
Theorem input_selection_policy (data : game_data) (args : arguments num) :
  (input_items args = None → input_resources args = None →
   main_inputs float data args =
   setup_inputs data (resource_cost args) (farming_cost args) (offshore_cost args))
  ∧ (input_items args ≠ None ∨ input_resources args ≠ None →
     (∀ inputs, main_inputs float data args = Ok inputs ↔
        ∃ its rs,
          inputs = its ++ rs ∧
          match input_items args with
          | Some items => Forall2 (item_entry_of float (input_quality args)) items its
          | None => its = []
          end ∧
          match input_resources args with
          | Some resources => Forall2 (resource_entry_of float) resources rs
          | None => rs = []
          end)
     ∧ (∀ data' args',
          input_items args' = input_items args →
          input_quality args' = input_quality args →
          input_resources args' = input_resources args →
          main_inputs float data' args' = main_inputs float data args))
  ∧ (∀ call, main float data args = Ok call →
             main_inputs float data args = Ok (cfg_inputs (call_config call)))
  ∧ (∀ inputs pr, main_inputs float data args = Ok inputs →
                  main_productivity_research float args = Ok pr →
                  ∃ call, main float data args = Ok call ∧
                          cfg_inputs (call_config call) = inputs).
Proof.
  split; [apply main_inputs_default|]. split; [|split].
  - intros H. split.
    + intros inputs. rewrite (main_inputs_manual_Ok _ _ _ H). split.
      * intros (its & rs & Hits%manual_items_Ok & Hrs%manual_resources_Ok & ->). eauto.
      * intros (its & rs & -> & Hits%manual_items_Ok & Hrs%manual_resources_Ok). eauto.
    + intros data' args' Hi Hq Hr.
      rewrite (main_inputs_manual data args H), (main_inputs_manual data' args').
      * unfold manual_items, manual_resources. by rewrite Hi, Hq, Hr.
      * by rewrite Hi, Hr.
  - intros call Hcall. by apply main_Ok_inv in Hcall as [? _].
  - intros inputs pr Hi Hp. destruct (main_runs data _ _ _ Hi Hp) as (call & ? & ? & _). eauto.
Qed.

(** C2.  For every game data in which each plant listed by a planet has a
    definition, and for all cost parameters, [setup_inputs] returns, planet
    after planet: one entry per offshore key (quality normal, not a resource,
    offshore cost), then for each plant of the planet one entry per entry of
    the result list of that plant (quality normal, not a resource, farming
    cost), then one entry per minable key (quality normal, a resource,
    resource cost).  Nothing is checked or merged: the blocks of the planets
    are concatenated as they are. *)
Theorem setup_inputs_enumerates (data : game_data) (resource_cost farming_cost offshore_cost : num) :
  plants_defined data →
  setup_inputs data resource_cost farming_cost offshore_cost =
  Ok (flat_map
        (fun p =>
           map (fun k => {| in_key := k; in_quality := "normal";
                            in_resource := false; in_cost := offshore_cost |})
               (offshore (resources p))
           ++ flat_map
                (fun plant =>
                   match plant_definition data plant with
                   | Some info =>
                       map (fun r => {| in_key := result_name r; in_quality := "normal";
                                        in_resource := false; in_cost := farming_cost |})
                           (plant_results info)
                   | None => []
                   end)
                (plants (resources p))
           ++ map (fun k => {| in_key := k; in_quality := "normal";
                               in_resource := true; in_cost := resource_cost |})
                  (resource (resources p)))
        (data_planets data)).
Proof.
  intros H. rewrite (setup_inputs_defined _ _ _ _ H). f_equal.
  unfold default_inputs. clear H.
  induction (data_planets data) as [|p ps IH]; [done|].
  simpl. rewrite IH. f_equal. unfold planet_inputs. do 2 f_equal.
  unfold planet_plant_results, plants_results.
  induction (plants (resources p)) as [|plant pl IHp]; [done|].
  simpl. rewrite map_app, IHp. by destruct (plant_definition data plant).
Qed.

(** C3.  The item variant of the manual parser.  It returns a list exactly
    when every token has exactly one ['='] and a segment after it that reads
    as a number; the list then has, token by token, the entry with the
    segment before the ['='] as key, the caller's input quality, the resource
    flag off and the number read as cost.  It fails exactly when some token
    does not have exactly one ['='] or has a cost segment that is no number;
    the failure is a [ValueError], and [main] then raises it without building
    a configuration. *)
Theorem parse_input_list_format (items : list string) (q : string) :
  (∀ inputs, parse_input_list float items q = Ok inputs ↔
     Forall2 (fun item i =>
                occurrences "=" item = 1 ∧
                ∃ v, float (after_first "=" item) = Some v ∧
                     i = {| in_key := before_first "=" item; in_quality := q;
                            in_resource := false; in_cost := v |})
             items inputs)
  ∧ ((∃ e, parse_input_list float items q = Raise e) ↔
     Exists (fun item => occurrences "=" item ≠ 1 ∨ float (after_first "=" item) = None)
            items)
  ∧ (∀ e, parse_input_list float items q = Raise e →
          is_ValueError e = true ∧
          ∀ data args, input_items args = Some items → input_quality args = q →
                       main float data args = Raise e).
Proof.
  split; [|split].
  - intros inputs. apply parse_input_list_Ok.
  - apply parse_input_list_Raise.
  - intros e He. split; [by eapply parse_input_list_ValueError|].
    intros data args Hitems <-. apply main_Raise_inputs.
    unfold main_inputs. rewrite Hitems, He. by destruct (input_resources args).
Qed.

(** C5.  For research tokens that each have one ['='], an item key of the
    table and a level that reads as a number, the expansion returns a
    mapping in which a recipe key has the level of the last token whose
    recipe keys contain it, and no value when no token has it: every recipe
    key of a token gets the level of that token, and a later token overwrites
    an earlier one on the recipe keys they share.  The tokens
    [["steel-plate=0.5"]] give the mapping of [steel-plate] and
    [casting-steel] to the number read from [0.5]. *)
Theorem research_expansion :
  (∀ items toks,
     research_tokens float items toks →
     ∃ m, parse_productivity_research_list float items = Ok m ∧
          (∀ pre k rs v post r,
             toks = pre ++ (k, rs, v) :: post → r ∈ rs →
             Forall (fun t => r ∉ t.1.2) post → m !! r = Some v) ∧
          (∀ r, Forall (fun t => r ∉ t.1.2) toks → m !! r = None))
  ∧ (∀ x, float "0.5" = Some x →
          parse_productivity_research_list float ["steel-plate=0.5"]
          = Ok (<["casting-steel" := x]> (<["steel-plate" := x]> ∅))).
Proof.
  split.
  - intros items toks H.
    destruct (research_loop_tokens items toks ∅ H) as (m & Hm & Hnone).
    exists m. split; [done|]. split.
    + intros pre k rs v post r -> Hr Hpost.
      destruct (research_loop_last_writer items pre post k rs v r ∅ H Hr Hpost)
        as (m' & Hm' & Hv).
      unfold parse_productivity_research_list in Hm. congruence.
    + intros r Hr. by rewrite (Hnone r Hr).
  - intros x Hx. unfold parse_productivity_research_list.
    rewrite research_loop_round.
    rewrite (research_round_token "steel-plate=0.5" "steel-plate"
               ["steel-plate"; "casting-steel"] x); [done|].
    by repeat split.
Qed.

(** C6, as amended.  For each of the three module classes on its own, the
    quality in the configuration is the override of the class when the caller
    gave one that is not the empty string, and the shared module quality when
    the caller gave none or gave the empty string.  The building quality and
    the maximal unlocked quality are passed as they are. *)
Theorem module_quality_override (data : game_data) (args : arguments num)
    (call : solver_call num) :
  main float data args = Ok call →
  let resolved (override : option string) :=
    match override with
    | Some q => if decide (q = "") then module_quality args else q
    | None => module_quality args
    end in
  cfg_prod_module_quality (call_config call) = resolved (prod_module_quality args) ∧
  cfg_quality_module_quality (call_config call) = resolved (quality_module_quality args) ∧
  cfg_speed_module_quality (call_config call) = resolved (speed_module_quality args) ∧
  cfg_building_quality (call_config call) = building_quality args ∧
  cfg_max_quality_unlocked (call_config call) = max_quality_unlocked args.
Proof.
  intros (_ & _ & Hq & Hp & Hs & Hb & Hm)%main_Ok_inv resolved.
  assert (Hor : ∀ o, py_or o (module_quality args) = resolved o).
  { intros [[|c s]|]; done. }
  rewrite Hq, Hp, Hs, !Hor. auto.
Qed.

(** C7, as amended.  For every game data in which each plant listed by a
    planet has a definition, and for all cost parameters, the output of
    [setup_inputs] is the concatenation of one block per planet; the block of
    a planet is its offshore entries, all at the offshore cost and as many as
    its offshore keys, then its plant entries, all at the farming cost and
    one per result entry of each of its plants (a result listed twice counts
    twice), then its minable entries, all at the resource cost and as many as
    its minable keys.  So the length is the sum over the planets of these
    three numbers. *)
Theorem setup_inputs_length_and_costs (data : game_data)
    (resource_cost farming_cost offshore_cost : num) :
  plants_defined data →
  ∃ blocks,
    setup_inputs data resource_cost farming_cost offshore_cost = Ok (concat blocks) ∧
    Forall2 (fun p block =>
               ∃ o f r,
                 block = o ++ f ++ r ∧
                 length o = length (offshore (resources p)) ∧
                 Forall (fun i => in_cost i = offshore_cost) o ∧
                 length f = length (planet_plant_results data p) ∧
                 Forall (fun i => in_cost i = farming_cost) f ∧
                 length r = length (resource (resources p)) ∧
                 Forall (fun i => in_cost i = resource_cost) r)
            (data_planets data) blocks ∧
    length (concat blocks) =
    sum_list (map (fun p => length (offshore (resources p))
                            + length (planet_plant_results data p)
                            + length (resource (resources p)))
                  (data_planets data)).
Proof.
  intros H.
  exists (map (planet_inputs data resource_cost farming_cost offshore_cost) (data_planets data)).
  rewrite <- flat_map_concat_map. split; [by apply setup_inputs_defined|]. split.
  - clear H. induction (data_planets data) as [|p ps IH]; simpl; constructor; [|done].
    eexists _, _, _. split; [reflexivity|].
    rewrite !length_map. repeat split; try done; by apply Forall_map, Forall_true.
  - apply default_inputs_length.
Qed.

(** C8.  The resource variant of the manual parser reads the tokens as the
    item variant does, with the same successes and the same failures,
    whatever input quality the item variant is given; every entry has the
    key and the cost of the item variant, the quality normal and the resource
    flag on.  The token ["iron-ore=1.0"] gives the entry with the key
    [iron-ore], the quality normal, the resource flag on and the number read
    from [1.0] as cost. *)
Theorem parse_resources_list_variant :
  (∀ items q,
     parse_resources_list float items =
     map (fun i => {| in_key := in_key i; in_quality := "normal";
                      in_resource := true; in_cost := in_cost i |})
       <$> parse_input_list float items q)
  ∧ (∀ items inputs,
       parse_resources_list float items = Ok inputs →
       Forall (fun i => in_quality i = "normal" ∧ in_resource i = true) inputs)
  ∧ (∀ x, float "1.0" = Some x →
          parse_resources_list float ["iron-ore=1.0"]
          = Ok [ {| in_key := "iron-ore"; in_quality := "normal";
                    in_resource := true; in_cost := x |} ]).
Proof.
  split; [|split].
  - intros items q. apply parse_resources_list_as_items.
  - intros items inputs H.
    rewrite (parse_resources_list_as_items "normal") in H.
    apply fmap_Ok_inv in H as (its & _ & ->). by apply Forall_map, Forall_true.
  - intros x Hx. apply parse_resources_list_Ok. repeat constructor. by exists x.
Qed.

(** C9.  A manual list that is supplied with no token is still a supplied
    list: the manual branch is taken and the default enumeration is left
    out.  With only an empty item list, or only an empty resource list, or
    both, the inputs are empty; with an empty list and another list, the
    inputs are the entries of the other list.  The configuration that [main]
    passes on has exactly these inputs: none in the first case, the entries
    of the other list, token by token, in the second. *)
Theorem empty_manual_list_is_manual (data : game_data) (args : arguments num) :
  (input_items args = Some [] ∨ input_resources args = Some [] →
   main_inputs float data args =
   its ← manual_items float args; rs ← manual_resources float args; Ok (its ++ rs))
  ∧ (input_items args = Some [] → input_resources args = None →
     main_inputs float data args = Ok [])
  ∧ (input_items args = None → input_resources args = Some [] →
     main_inputs float data args = Ok [])
  ∧ (input_items args = Some [] → input_resources args = Some [] →
     main_inputs float data args = Ok [])
  ∧ (∀ resources, input_items args = Some [] → input_resources args = Some resources →
                  main_inputs float data args = parse_resources_list float resources)
  ∧ (∀ items, input_items args = Some items → input_resources args = Some [] →
              main_inputs float data args = parse_input_list float items (input_quality args))
  ∧ (∀ call, main float data args = Ok call →
             main_inputs float data args = Ok (cfg_inputs (call_config call)))
  ∧ (∀ inputs pr, main_inputs float data args = Ok inputs →
                  main_productivity_research float args = Ok pr →
                  ∃ call, main float data args = Ok call ∧
                          cfg_inputs (call_config call) = inputs)
  ∧ (∀ call, main float data args = Ok call →
             (input_items args = Some [] ∧ input_resources args = None)
             ∨ (input_items args = None ∧ input_resources args = Some [])
             ∨ (input_items args = Some [] ∧ input_resources args = Some []) →
             cfg_inputs (call_config call) = [])
  ∧ (∀ resources call, input_items args = Some [] →
                       input_resources args = Some resources →
                       main float data args = Ok call →
                       Forall2 (resource_entry_of float) resources
                               (cfg_inputs (call_config call)))
  ∧ (∀ items call, input_items args = Some items →
                   input_resources args = Some [] →
                   main float data args = Ok call →
                   Forall2 (item_entry_of float (input_quality args)) items
                           (cfg_inputs (call_config call))).
Proof.
  assert (Hres : ∀ resources, input_items args = Some [] →
                   input_resources args = Some resources →
                   main_inputs float data args = parse_resources_list float resources).
  { intros resources Hi Hr. unfold main_inputs. rewrite Hi, Hr. simpl.
    by destruct (parse_resources_list float resources). }
  assert (Hitems : ∀ items, input_items args = Some items →
                     input_resources args = Some [] →
                     main_inputs float data args
                     = parse_input_list float items (input_quality args)).
  { intros items Hi Hr. unfold main_inputs. rewrite Hi, Hr. simpl.
    destruct (parse_input_list float items (input_quality args)); simpl; [|done].
    by rewrite app_nil_r. }
  assert (Hcfg : ∀ call, main float data args = Ok call →
                   main_inputs float data args = Ok (cfg_inputs (call_config call))).
  { intros call Hcall. by apply main_Ok_inv in Hcall as [? _]. }
  split; [|split; [|split; [|split; [|split; [|split; [|split; [|split; [|split; [|split]]]]]]]]].
  - intros H. apply main_inputs_manual. destruct H as [H|H]; rewrite H; auto.
  - intros Hi Hr. unfold main_inputs. by rewrite Hi, Hr.
  - intros Hi Hr. unfold main_inputs. by rewrite Hi, Hr.
  - intros Hi Hr. unfold main_inputs. by rewrite Hi, Hr.
  - exact Hres.
  - exact Hitems.
  - exact Hcfg.
  - intros inputs pr Hi Hp. destruct (main_runs data _ _ _ Hi Hp) as (call & ? & ? & _). eauto.
  - intros call Hcall%Hcfg Hcase. unfold main_inputs in Hcall.
    destruct Hcase as [[Hi Hr]|[[Hi Hr]|[Hi Hr]]]; rewrite Hi, Hr in Hcall;
      by injection Hcall as <-.
  - intros resources call Hi Hr Hcall%Hcfg. rewrite (Hres resources Hi Hr) in Hcall.
    by apply parse_resources_list_Ok.
  - intros items call Hi Hr Hcall%Hcfg. rewrite (Hitems items Hi Hr) in Hcall.
    by apply parse_input_list_Ok.
Qed.

(** C10.  When both manual lists are supplied and every token is well
    formed, the inputs are the entries of the item tokens, one per token and
    in the order of the tokens, followed by the entries of the resource
    tokens, one per token and in the order of the tokens; a key that comes
    twice gives two entries.  These are the inputs of the configuration that
    [main] passes on. *)
Theorem manual_inputs_order (data : game_data) (args : arguments num)
    (items resources : list string) :
  input_items args = Some items → input_resources args = Some resources →
  Forall (well_formed float) items → Forall (well_formed float) resources →
  ∃ its rs,
    main_inputs float data args = Ok (its ++ rs) ∧
    Forall2 (item_entry_of float (input_quality args)) items its ∧
    Forall2 (resource_entry_of float) resources rs ∧
    map in_key its = map (before_first "=") items ∧
    map in_key rs = map (before_first "=") resources ∧
    (∀ pr, main_productivity_research float args = Ok pr →
           ∃ call, main float data args = Ok call ∧
                   cfg_inputs (call_config call) = its ++ rs).
Proof.
  intros Hi Hr Hwi Hwr.
  destruct (parse_input_list_total (input_quality args) items Hwi) as [its Hits].
  destruct (parse_resources_list_total resources Hwr) as [rs Hrs].
  assert (Hmain : main_inputs float data args = Ok (its ++ rs)).
  { unfold main_inputs. by rewrite Hi, Hr, Hits, Hrs. }
  exists its, rs. apply parse_input_list_Ok in Hits. apply parse_resources_list_Ok in Hrs.
  repeat split; try done.
  - clear Hmain Hi Hwi. induction Hits as [|item i ? ? (_ & v & _ & ->) _ IH]; simpl; [done|].
    by rewrite IH.
  - clear Hmain Hr Hwr. induction Hrs as [|item i ? ? (_ & v & _ & ->) _ IH]; simpl; [done|].
    by rewrite IH.
  - intros pr Hp. destruct (main_runs data _ _ _ Hmain Hp) as (call & ? & ? & _). eauto.
Qed.

End Properties.

(** ** The claims on concrete inputs *)

Import Example.

Local Ltac token_ok :=
  split; [reflexivity | eexists; split; reflexivity].

Local Ltac well_formed_tokens :=
  repeat constructor; eexists; reflexivity.

Local Ltac not_in_list :=
  simpl; repeat (apply not_elem_of_cons; split; [discriminate|]); apply not_elem_of_nil.

Lemma plants_defined_data : plants_defined data.
Proof. repeat constructor; by eexists. Qed.

Lemma plants_defined_data_two_trees : plants_defined data_two_trees.
Proof. repeat constructor; by eexists. Qed.

(** C1 at the manual lists [copper-plate=2.5] and [iron-ore=1.0], and at no
    manual list. *)
Lemma input_selection_policy_witness :
  main_inputs float data (with_inputs (Some ["copper-plate=2.5"]) (Some ["iron-ore=1.0"]) defaults)
  = Ok [ {| in_key := "copper-plate"; in_quality := "normal"; in_resource := false;
            in_cost := {| mantissa := 25; scale := 1 |} |};
         {| in_key := "iron-ore"; in_quality := "normal"; in_resource := true;
            in_cost := one |} ]
  ∧ main_inputs float data defaults = setup_inputs data one one tenth.
Proof.
  split.
  - destruct (input_selection_policy float data
                (with_inputs (Some ["copper-plate=2.5"]) (Some ["iron-ore=1.0"]) defaults))
      as (_ & Hmanual & _).
    destruct Hmanual as [Hiff _]; [by left|].
    apply Hiff. eexists [_], [_]. split; [reflexivity|].
    split; (constructor; [token_ok | constructor]).
  - destruct (input_selection_policy float data defaults) as (Hdefault & _).
    by apply Hdefault.
Defined.

(** C2 at the example data. *)
Lemma setup_inputs_enumerates_witness :
  plants_defined data ∧
  setup_inputs data one one tenth
  = Ok [ {| in_key := "water"; in_quality := "normal"; in_resource := false; in_cost := tenth |};
         {| in_key := "wood"; in_quality := "normal"; in_resource := false; in_cost := one |};
         {| in_key := "iron-ore"; in_quality := "normal"; in_resource := true; in_cost := one |};
         {| in_key := "copper-ore"; in_quality := "normal"; in_resource := true; in_cost := one |};
         {| in_key := "water"; in_quality := "normal"; in_resource := false; in_cost := tenth |};
         {| in_key := "yumako"; in_quality := "normal"; in_resource := false; in_cost := one |};
         {| in_key := "jellynut"; in_quality := "normal"; in_resource := false; in_cost := one |};
         {| in_key := "stone"; in_quality := "normal"; in_resource := true; in_cost := one |} ].
Proof.
  split; [exact plants_defined_data|].
  exact (setup_inputs_enumerates data one one tenth plants_defined_data).
Defined.

(** C3 at the tokens of the specification. *)
Lemma parse_input_list_format_witness :
  parse_input_list float ["copper-plate=2.5"] "normal"
  = Ok [ {| in_key := "copper-plate"; in_quality := "normal"; in_resource := false;
            in_cost := {| mantissa := 25; scale := 1 |} |} ]
  ∧ (∃ e, parse_input_list float ["bad-token"] "normal" = Raise e)
  ∧ (∃ e, parse_input_list float ["key=notanumber"] "normal" = Raise e)
  ∧ main float data (with_inputs (Some ["bad-token"]) None defaults)
    = Raise (ValueError (NotEnoughValues 1)).
Proof.
  split; [|split; [|split]].
  - apply (proj1 (parse_input_list_format float ["copper-plate=2.5"] "normal")).
    constructor; [token_ok | constructor].
  - apply (proj1 (proj2 (parse_input_list_format float ["bad-token"] "normal"))).
    left. by left.
  - apply (proj1 (proj2 (parse_input_list_format float ["key=notanumber"] "normal"))).
    left. by right.
  - destruct (proj2 (proj2 (parse_input_list_format float ["bad-token"] "normal"))
                (ValueError (NotEnoughValues 1)) eq_refl) as [_ Hmain].
    by apply Hmain.
Defined.

(** Against C4 as stated: a token with an unknown key after a token that is
    malformed, or whose level is no number, and the error is a [ValueError]. *)
Lemma unknown_key_after_malformed_token :
  Exists unknown_research_key ["bad-token"; "unobtainium=0.3"]
  ∧ parse_productivity_research_list float ["bad-token"; "unobtainium=0.3"]
    = Raise (ValueError (NotEnoughValues 1))
  ∧ Exists unknown_research_key ["steel-plate=abc"; "unobtainium=0.3"]
  ∧ parse_productivity_research_list float ["steel-plate=abc"; "unobtainium=0.3"]
    = Raise (ValueError (NotAFloat "abc")).
Proof.
  split; [right; left; by split|]. split; [reflexivity|].
  split; [right; left; by split|]. reflexivity.
Qed.

(** C5 at one token, and at two tokens of the same item. *)
Lemma research_expansion_witness :
  parse_productivity_research_list float ["steel-plate=0.5"]
  = Ok (<["casting-steel" := {| mantissa := 5; scale := 1 |}]>
          (<["steel-plate" := {| mantissa := 5; scale := 1 |}]> ∅))
  ∧ ∃ m, parse_productivity_research_list float ["steel-plate=0.5"; "steel-plate=1.0"] = Ok m
         ∧ m !! "casting-steel" = Some one
         ∧ m !! "plastic-bar" = None.
Proof.
  split.
  - by apply (proj2 (research_expansion float)).
  - destruct (proj1 (research_expansion float)
                ["steel-plate=0.5"; "steel-plate=1.0"]
                [("steel-plate", ["steel-plate"; "casting-steel"], {| mantissa := 5; scale := 1 |});
                 ("steel-plate", ["steel-plate"; "casting-steel"], one)])
      as (m & Hm & Hlast & Hnone).
    + constructor; [by repeat split|]. constructor; [by repeat split | constructor].
    + exists m. split; [exact Hm|]. split.
      * apply (Hlast [("steel-plate", ["steel-plate"; "casting-steel"],
                       {| mantissa := 5; scale := 1 |})]
                 "steel-plate" ["steel-plate"; "casting-steel"] one []);
          [done | apply list_elem_of_further, list_elem_of_here | constructor].
      * apply Hnone. repeat (constructor; [not_in_list|]). constructor.
Defined.

(** C6 at the shared quality [rare], with the override [epic] for the
    quality modules only. *)
Lemma module_quality_override_witness :
  ∃ call,
    main float data (with_qualities "rare" None (Some "epic") None defaults) = Ok call
    ∧ cfg_quality_module_quality (call_config call) = "epic"
    ∧ cfg_prod_module_quality (call_config call) = "rare"
    ∧ cfg_speed_module_quality (call_config call) = "rare".
Proof.
  destruct (main float data (with_qualities "rare" None (Some "epic") None defaults))
    as [call|e] eqn:E; [|discriminate E].
  exists call. split; [reflexivity|].
  destruct (module_quality_override float data _ call E) as (Hp & Hq & Hs & _).
  split; [exact Hq | split; [exact Hp | exact Hs]].
Defined.

(** Against C6 as stated: the caller gives the empty string as the quality
    of the quality modules, and the configuration has the shared quality. *)
Lemma empty_override_falls_back :
  let args := with_qualities "rare" None (Some "") None defaults in
  ∃ call,
    main float data args = Ok call
    ∧ quality_module_quality args = Some ""
    ∧ cfg_quality_module_quality (call_config call) = "rare"
    ∧ cfg_quality_module_quality (call_config call) ≠ "".
Proof. intros args. eexists. split; [reflexivity|]. by repeat split. Qed.

(** C7 at the example data: eight entries, four and four. *)
Lemma setup_inputs_length_and_costs_witness :
  plants_defined data ∧
  ∃ blocks,
    setup_inputs data one one tenth = Ok (concat blocks)
    ∧ length (concat blocks) = 8
    ∧ Forall (fun block => length block = 4) blocks.
Proof.
  split; [exact plants_defined_data|].
  destruct (setup_inputs_length_and_costs data one one tenth plants_defined_data)
    as (blocks & Hsetup & Hblocks & Hlength).
  exists blocks. split; [exact Hsetup|]. split; [exact Hlength|].
  simpl in Hblocks.
  inversion Hblocks as [|? b1 ? bs1 (o1 & f1 & r1 & -> & Ho1 & _ & Hf1 & _ & Hr1 & _) Hrest];
    subst.
  inversion Hrest as [|? b2 ? bs2 (o2 & f2 & r2 & -> & Ho2 & _ & Hf2 & _ & Hr2 & _) Hnil];
    subst.
  inversion Hnil; subst.
  repeat constructor; rewrite !length_app.
  - rewrite Ho1, Hf1, Hr1. reflexivity.
  - rewrite Ho2, Hf2, Hr2. reflexivity.
Defined.

(** Against C7 as stated: two plants of one planet give the same item; the
    enumeration has two entries and the planet one distinct plant result.
    And a planet lists one plant twice; the enumeration has two entries and
    the planet one distinct pair of a plant and a result. *)
Lemma two_plants_one_result :
  (plants_defined data_two_trees ∧
   ∃ inputs,
     setup_inputs data_two_trees one one tenth = Ok inputs
     ∧ length inputs = 2
     ∧ sum_list (map (fun p => length (offshore (resources p))
                               + distinct_plant_results data_two_trees p
                               + length (resource (resources p)))
                     (data_planets data_two_trees)) = 1)
  ∧ (plants_defined data_plant_twice ∧
     ∃ inputs,
       setup_inputs data_plant_twice one one tenth = Ok inputs
       ∧ length inputs = 2
       ∧ sum_list (map (fun p => length (offshore (resources p))
                                 + distinct_plant_result_pairs data_plant_twice p
                                 + length (resource (resources p)))
                       (data_planets data_plant_twice)) = 1).
Proof.
  split.
  - split; [exact plants_defined_data_two_trees|].
    eexists. split; [reflexivity|]. split; reflexivity.
  - split; [repeat constructor; by eexists|].
    eexists. split; [reflexivity|]. split; reflexivity.
Qed.

(** C8 at the token of the specification. *)
Lemma parse_resources_list_variant_witness :
  parse_resources_list float ["iron-ore=1.0"]
  = Ok [ {| in_key := "iron-ore"; in_quality := "normal"; in_resource := true;
            in_cost := one |} ]
  ∧ parse_resources_list float ["bad-token"]
    = map (fun i => {| in_key := in_key i; in_quality := "normal";
                       in_resource := true; in_cost := in_cost i |})
        <$> parse_input_list float ["bad-token"] "legendary".
Proof.
  split.
  - by apply (proj2 (proj2 (parse_resources_list_variant float))).
  - apply (proj1 (parse_resources_list_variant float)).
Defined.

(** C9 at an empty item list alone, and with a resource list. *)
Lemma empty_manual_list_is_manual_witness :
  main_inputs float data (with_inputs (Some []) None defaults) = Ok []
  ∧ main_inputs float data (with_inputs (Some []) (Some ["iron-ore=1.0"]) defaults)
    = parse_resources_list float ["iron-ore=1.0"]
  ∧ (∃ call, main float data (with_inputs (Some []) None defaults) = Ok call
             ∧ cfg_inputs (call_config call) = [])
  ∧ (∃ call, main float data (with_inputs (Some []) (Some ["iron-ore=1.0"]) defaults) = Ok call
             ∧ Forall2 (resource_entry_of float) ["iron-ore=1.0"]
                       (cfg_inputs (call_config call))
             ∧ cfg_inputs (call_config call)
               = [ {| in_key := "iron-ore"; in_quality := "normal"; in_resource := true;
                      in_cost := one |} ]).
Proof.
  split; [|split; [|split]].
  - by apply (proj1 (proj2 (empty_manual_list_is_manual float data
                              (with_inputs (Some []) None defaults)))).
  - destruct (empty_manual_list_is_manual float data
                (with_inputs (Some []) (Some ["iron-ore=1.0"]) defaults))
      as (_ & _ & _ & _ & Hres & _).
    by apply Hres.
  - destruct (empty_manual_list_is_manual float data (with_inputs (Some []) None defaults))
      as (_ & _ & _ & _ & _ & _ & _ & Hmain & _).
    by apply (Hmain [] ∅).
  - destruct (empty_manual_list_is_manual float data
                (with_inputs (Some []) (Some ["iron-ore=1.0"]) defaults))
      as (_ & _ & _ & _ & _ & _ & _ & Hmain & _ & Hcfg & _).
    destruct (Hmain [ {| in_key := "iron-ore"; in_quality := "normal"; in_resource := true;
                         in_cost := one |} ] ∅ eq_refl eq_refl) as (call & Hcall & Hinputs).
    exists call. split; [exact Hcall|]. split; [|exact Hinputs].
    by apply (Hcfg ["iron-ore=1.0"] call).
Defined.

(** C10 at two item tokens with the same key and one resource token. *)
Lemma manual_inputs_order_witness :
  ∃ its rs,
    main_inputs float data
      (with_inputs (Some ["copper-plate=2.5"; "copper-plate=3"]) (Some ["iron-ore=1.0"]) defaults)
    = Ok (its ++ rs)
    ∧ map in_key its = ["copper-plate"; "copper-plate"]
    ∧ map in_key rs = ["iron-ore"]
    ∧ Forall (fun i => in_resource i = false) its
    ∧ Forall (fun i => in_resource i = true) rs.
Proof.
  destruct (manual_inputs_order float data
              (with_inputs (Some ["copper-plate=2.5"; "copper-plate=3"])
                           (Some ["iron-ore=1.0"]) defaults)
              ["copper-plate=2.5"; "copper-plate=3"] ["iron-ore=1.0"])
    as (its & rs & Hmain & Hits & Hrs & Hki & Hkr & _);
    [reflexivity | reflexivity | well_formed_tokens | well_formed_tokens |].
  exists its, rs. split; [exact Hmain|]. split; [exact Hki|]. split; [exact Hkr|]. split.
  - clear Hmain Hki. induction Hits as [|? ? ? ? (_ & v & _ & ->) _ IH]; constructor; auto.
  - clear Hmain Hkr. induction Hrs as [|? ? ? ? (_ & v & _ & ->) _ IH]; constructor; auto.
Defined.

(** * Further properties of the program *)

Lemma filter_map_all {A B} (P : B → Prop) `{!∀ x, Decision (P x)} (f : A → B) (l : list A) :
  (∀ x, P (f x)) → filter P (map f l) = map f l.
Proof.
  intros Hall. induction l as [|x l IH]; [done|].
  simpl. rewrite filter_cons_True by done. by rewrite IH.
Qed.

Lemma filter_map_none {A B} (P : B → Prop) `{!∀ x, Decision (P x)} (f : A → B) (l : list A) :
  (∀ x, ¬ P (f x)) → filter P (map f l) = [].
Proof.
  intros Hall. induction l as [|x l IH]; [done|].
  simpl. by rewrite filter_cons_False.
Qed.

Lemma bind_assoc {A B C} (r : result A) (f : A → result B) (g : B → result C) :
  (r ≫= f) ≫= g = r ≫= (fun a => f a ≫= g).
Proof. by destruct r. Qed.

Lemma flat_map_Forall_ext {A B} (f g : A → list B) (l : list A) :
  Forall (fun x => f x = g x) l → flat_map f l = flat_map g l.
Proof. intros H. induction H as [|x l Hx _ IH]; simpl; [done|]. by rewrite Hx, IH. Qed.

Lemma plant_definition_None (data : game_data) (plant : string) :
  plant_definition data plant = None ↔
  Forall (fun info => plant_key info ≠ plant) (data_plants data).
Proof.
  unfold plant_definition. rewrite head_None.
  induction (data_plants data) as [|info l IH]; [by split; [constructor|]|].
  rewrite filter_cons. destruct (decide (plant_key info = plant)) as [Heq|Hne].
  - split; [done|]. intros H. by inversion H.
  - rewrite IH. split; [by constructor|]. intros H. by inversion H.
Qed.

Lemma plant_definition_more (data : game_data) (more : list plant_info)
    (plant : string) (info : plant_info) :
  plant_definition data plant = Some info →
  plant_definition {| data_planets := data_planets data;
                      data_plants := data_plants data ++ more |} plant = Some info.
Proof.
  unfold plant_definition. simpl. rewrite filter_app.
  intros H. apply head_app_Some. by left.
Qed.

Section Coverage.
Context {num : Type}.
Variable float : string -> option num.

(** ** The default enumeration *)

Lemma setup_inputs_cases (data : game_data) (rc fc oc : num) :
  (plants_defined data ∧
   setup_inputs data rc fc oc = Ok (default_inputs data rc fc oc))
  ∨ (¬ plants_defined data ∧ setup_inputs data rc fc oc = Raise IndexError).
Proof.
  unfold plants_defined.
  destruct (decide (Forall (fun p => Forall (fun plant => is_Some (plant_definition data plant))
                                            (plants (resources p)))
                           (data_planets data))) as [H|H].
  - left. split; [done|]. by apply setup_inputs_defined.
  - right. split; [done|]. by apply setup_inputs_undefined.
Qed.

Lemma plants_loop_same_plants (data data' : game_data) (fc : num) (ps : list string)
    (inputs : list (input_spec num)) :
  data_plants data = data_plants data' →
  plants_loop data fc ps inputs = plants_loop data' fc ps inputs.
Proof.
  intros H. revert inputs. induction ps as [|plant ps IH]; intros inputs; simpl; [done|].
  unfold find_plant. rewrite H.
  destruct (filter _ (data_plants data')); simpl; [done | apply IH].
Qed.

Lemma planets_loop_same_plants (data data' : game_data) (rc fc oc : num)
    (ps : list planet) (inputs : list (input_spec num)) :
  data_plants data = data_plants data' →
  planets_loop data rc fc oc ps inputs = planets_loop data' rc fc oc ps inputs.
Proof.
  intros H. revert inputs. induction ps as [|p ps IH]; intros inputs; simpl; [done|].
  rewrite (plants_loop_same_plants data data' _ _ _ H).
  destruct (plants_loop data' fc _ _); simpl; [apply IH | done].
Qed.

Lemma planets_loop_app (data : game_data) (rc fc oc : num) (ps1 ps2 : list planet)
    (inputs : list (input_spec num)) :
  planets_loop data rc fc oc (ps1 ++ ps2) inputs =
  o ← planets_loop data rc fc oc ps1 inputs; planets_loop data rc fc oc ps2 o.
Proof.
  revert inputs. induction ps1 as [|p ps1 IH]; intros inputs; simpl; [done|].
  destruct (plants_loop data fc _ _); simpl; [apply IH | done].
Qed.

Lemma planets_loop_acc (data : game_data) (rc fc oc : num) (ps : list planet)
    (inputs : list (input_spec num)) :
  planets_loop data rc fc oc ps inputs =
  (inputs ++.) <$> planets_loop data rc fc oc ps [].
Proof.
  destruct (decide (Forall (fun p => Forall (fun plant => is_Some (plant_definition data plant))
                                            (plants (resources p))) ps)) as [H|H].
  - by rewrite !planets_loop_defined.
  - by rewrite !planets_loop_undefined.
Qed.

Lemma plants_results_more (data : game_data) (more : list plant_info) (ps : list string) :
  Forall (fun plant => is_Some (plant_definition data plant)) ps →
  plants_results {| data_planets := data_planets data;
                    data_plants := data_plants data ++ more |} ps
  = plants_results data ps.
Proof.
  intros H. induction H as [|plant ps [info Hinfo] _ IH]; [done|].
  unfold plants_results in *. simpl.
  by rewrite (plant_definition_more _ more _ _ Hinfo), Hinfo, IH.
Qed.

Lemma default_inputs_quality (data : game_data) (rc fc oc : num) :
  Forall (fun i => in_quality i = "normal") (default_inputs data rc fc oc).
Proof.
  unfold default_inputs. induction (data_planets data) as [|p ps IH]; simpl; [constructor|].
  apply Forall_app. split; [|done]. unfold planet_inputs.
  rewrite !Forall_app. repeat split; by apply Forall_map, Forall_true.
Qed.

Lemma default_inputs_filter_resource (data : game_data) (rc fc oc : num) :
  filter (fun i => in_resource i = true) (default_inputs data rc fc oc)
  = map (resource_entry rc) (flat_map (fun p => resource (resources p)) (data_planets data)).
Proof.
  unfold default_inputs. induction (data_planets data) as [|p ps IH]; simpl; [done|].
  rewrite filter_app, IH, map_app. f_equal. unfold planet_inputs.
  rewrite !filter_app.
  rewrite (filter_map_none _ (offshore_entry oc)), (filter_map_none _ (farming_entry fc)),
    (filter_map_all _ (resource_entry rc)); done.
Qed.

Lemma default_inputs_filter_other (data : game_data) (rc fc oc : num) :
  filter (fun i => in_resource i = false) (default_inputs data rc fc oc)
  = flat_map (fun p => map (offshore_entry oc) (offshore (resources p))
                       ++ map (farming_entry fc) (planet_plant_results data p))
             (data_planets data).
Proof.
  unfold default_inputs. induction (data_planets data) as [|p ps IH]; simpl; [done|].
  rewrite filter_app, IH. f_equal. unfold planet_inputs.
  rewrite !filter_app.
  rewrite (filter_map_all _ (offshore_entry oc)), (filter_map_all _ (farming_entry fc)),
    (filter_map_none _ (resource_entry rc)) by done.
  by rewrite app_nil_r.
Qed.

(** X1.  [setup_inputs] fails exactly when some planet lists a plant whose
    key no entry of the plants of the data has; the failure is the
    [IndexError] of the subscript [[0]], never another exception, and no
    input is returned, not even those of the planets before. *)
Theorem setup_inputs_missing_plant (data : game_data) (rc fc oc : num) :
  (setup_inputs data rc fc oc = Raise IndexError ↔
   ∃ p plant, p ∈ data_planets data ∧ plant ∈ plants (resources p) ∧
              Forall (fun info => plant_key info ≠ plant) (data_plants data))
  ∧ (∀ e, setup_inputs data rc fc oc = Raise e → e = IndexError)
  ∧ ((∃ inputs, setup_inputs data rc fc oc = Ok inputs) ↔ plants_defined data).
Proof.
  destruct (setup_inputs_cases data rc fc oc) as [[Hdef ->]|[Hundef ->]].
  - split; [|split; [done | split; [by intros _ | by eauto]]].
    split; [done|]. intros (p & plant & Hp & Hplant & Hnone%plant_definition_None).
    unfold plants_defined in Hdef. rewrite Forall_forall in Hdef.
    specialize (Hdef p Hp). rewrite Forall_forall in Hdef.
    destruct (Hdef plant Hplant) as [info Hinfo]. congruence.
  - split; [|split; [by intros e [= <-] | split; [by intros [? ?] | done]]].
    split; [intros _ | done].
    apply not_Forall_Exists in Hundef; [|apply _].
    apply Exists_exists in Hundef as (p & Hp & Hplants). simpl in Hplants.
    apply not_Forall_Exists in Hplants; [|apply _].
    apply Exists_exists in Hplants as (plant & Hplant & Hnone). simpl in Hnone.
    exists p, plant. split; [done|]. split; [done|].
    apply plant_definition_None.
    destruct (plant_definition data plant) eqn:E; [|done]. destruct Hnone. by eexists.
Qed.

(** X2.  Only the first definition of a plant counts: when every listed
    plant has a definition, definitions added after those of the data, with
    keys that the data has already or with new keys, change nothing of what
    [setup_inputs] returns. *)
Theorem later_plant_definitions_ignored (data : game_data) (more : list plant_info)
    (rc fc oc : num) :
  plants_defined data →
  setup_inputs {| data_planets := data_planets data;
                  data_plants := data_plants data ++ more |} rc fc oc
  = setup_inputs data rc fc oc.
Proof.
  intros Hdef. rewrite (setup_inputs_defined data _ _ _ Hdef).
  rewrite setup_inputs_defined.
  - f_equal. unfold default_inputs. simpl. apply flat_map_Forall_ext.
    eapply Forall_impl; [exact Hdef|]. intros p Hp. simpl in Hp.
    unfold planet_inputs, planet_plant_results.
    by rewrite plants_results_more.
  - unfold plants_defined in *. simpl.
    eapply Forall_impl; [exact Hdef|]. intros p Hp. simpl in Hp.
    eapply Forall_impl; [exact Hp|]. intros plant [info Hinfo]. simpl.
    exists info. by apply plant_definition_more.
Qed.

(** X3.  The planets are enumerated one after the other and the order of the
    planets is the order of the output: for planets [ps1 ++ ps2] the result
    is the result for [ps1] followed by the result for [ps2] (with the same
    plants), and a failure of either part is the failure of the whole. *)
Theorem setup_inputs_planets_app (ps1 ps2 : list planet) (pl : list plant_info)
    (rc fc oc : num) :
  setup_inputs {| data_planets := ps1 ++ ps2; data_plants := pl |} rc fc oc =
  o1 ← setup_inputs {| data_planets := ps1; data_plants := pl |} rc fc oc;
  o2 ← setup_inputs {| data_planets := ps2; data_plants := pl |} rc fc oc;
  Ok (o1 ++ o2).
Proof.
  unfold setup_inputs. simpl. rewrite planets_loop_app.
  rewrite (planets_loop_same_plants _ {| data_planets := ps1; data_plants := pl |}) by done.
  destruct (planets_loop _ rc fc oc ps1 []) as [o1|e]; simpl; [|done].
  rewrite planets_loop_acc.
  rewrite (planets_loop_same_plants _ {| data_planets := ps2; data_plants := pl |}) by done.
  by destruct (planets_loop _ rc fc oc ps2 []).
Qed.

(** X4.  In what [setup_inputs] returns every entry has the quality normal,
    whatever the input quality of the command line; the entries with the
    resource flag are exactly the minable keys of the planets, in order and
    at the resource cost, and the entries without it are, planet by planet,
    the offshore keys at the offshore cost and then the plant results at the
    farming cost. *)
Theorem default_inputs_invariants (data : game_data) (rc fc oc : num)
    (inputs : list (input_spec num)) :
  setup_inputs data rc fc oc = Ok inputs →
  Forall (fun i => in_quality i = "normal") inputs
  ∧ filter (fun i => in_resource i = true) inputs
    = map (fun k => {| in_key := k; in_quality := "normal"; in_resource := true;
                       in_cost := rc |})
          (flat_map (fun p => resource (resources p)) (data_planets data))
  ∧ filter (fun i => in_resource i = false) inputs
    = flat_map (fun p =>
                  map (fun k => {| in_key := k; in_quality := "normal";
                                   in_resource := false; in_cost := oc |})
                      (offshore (resources p))
                  ++ map (fun r => {| in_key := result_name r; in_quality := "normal";
                                      in_resource := false; in_cost := fc |})
                         (planet_plant_results data p))
               (data_planets data).
Proof.
  destruct (setup_inputs_cases data rc fc oc) as [[_ ->]|[_ ->]]; [|done].
  intros [= <-]. split; [apply default_inputs_quality|]. split.
  - apply default_inputs_filter_resource.
  - apply default_inputs_filter_other.
Qed.

(** ** The manual token parsers *)

Lemma parse_input_list_app (a b : list string) (q : string) :
  parse_input_list float (a ++ b) q =
  its ← parse_input_list float a q; rs ← parse_input_list float b q; Ok (its ++ rs).
Proof.
  induction a as [|item a IH].
  - simpl. by destruct (parse_input_list float b q).
  - rewrite <- app_comm_cons, !parse_input_list_cons.
    destruct (item_round float q item) as [i|e]; simpl; [|done].
    rewrite IH. destruct (parse_input_list float a q) as [its|e]; simpl; [|done].
    by destruct (parse_input_list float b q).
Qed.

Lemma parse_resources_list_app (a b : list string) :
  parse_resources_list float (a ++ b) =
  its ← parse_resources_list float a; rs ← parse_resources_list float b; Ok (its ++ rs).
Proof.
  rewrite !(parse_resources_list_as_items float "normal"), parse_input_list_app.
  destruct (parse_input_list float a "normal") as [its|e]; simpl; [|done].
  destruct (parse_input_list float b "normal") as [rs|e]; simpl; [|done].
  by rewrite map_app.
Qed.

Lemma split_no_separator (item : string) :
  occurrences "=" item = 0 → split "=" item = [item].
Proof. intros H. by apply split_one. Qed.

Lemma unpack2_split_many (item : string) (n : nat) :
  occurrences "=" item = S (S n) →
  unpack2 (split "=" item) = Raise (ValueError TooManyValues).
Proof.
  intros H. pose proof (split_length "=" item) as Hlen. rewrite H in Hlen.
  by destruct (split "=" item) as [|a [|b [|c parts]]].
Qed.

Lemma item_round_error (q item : string) (e : exn) :
  token_error float item = Some e → item_round float q item = Raise e.
Proof.
  unfold token_error, item_round.
  destruct (occurrences "=" item) as [|[|n]] eqn:Hocc.
  - intros [= <-]. by rewrite split_no_separator.
  - rewrite unpack2_split_one by done. simpl. unfold py_float.
    destruct (float (after_first "=" item)); [done | by intros [= <-]].
  - intros [= <-]. by rewrite (unpack2_split_many item n).
Qed.

Lemma token_error_None (item : string) :
  token_error float item = None ↔ well_formed float item.
Proof.
  unfold token_error, well_formed.
  destruct (occurrences "=" item) as [|[|n]] eqn:Hocc.
  - split; [done | by intros [? _]].
  - destruct (float (after_first "=" item)) as [v|]; split; try done.
    + by intros [_ [? ?]].
  - split; [done | by intros [? _]].
Qed.

Lemma after_first_occurrences (sep : ascii) (s : string) :
  occurrences sep s ≠ 0 →
  occurrences sep s = S (occurrences sep (after_first sep s)).
Proof.
  induction s as [|a rest IH]; simpl; [done|].
  destruct (Ascii.eqb a sep); simpl; [done | apply IH].
Qed.

Lemma before_first_join (sep : ascii) (k c : string) :
  occurrences sep k = 0 → before_first sep (k +:+ String sep c) = k.
Proof.
  induction k as [|a k IH]; simpl.
  - by rewrite Ascii.eqb_refl.
  - destruct (Ascii.eqb a sep); simpl; [done|]. intros H. by rewrite IH.
Qed.

Lemma after_first_join (sep : ascii) (k c : string) :
  occurrences sep k = 0 → after_first sep (k +:+ String sep c) = c.
Proof.
  induction k as [|a k IH]; simpl.
  - by rewrite Ascii.eqb_refl.
  - destruct (Ascii.eqb a sep); simpl; [done | apply IH].
Qed.

Lemma occurrences_join (sep : ascii) (k c : string) :
  occurrences sep (k +:+ String sep c) = occurrences sep k + S (occurrences sep c).
Proof.
  induction k as [|a k IH]; simpl.
  - by rewrite Ascii.eqb_refl.
  - rewrite IH. by destruct (Ascii.eqb a sep).
Qed.

(** X5.  Both manual parsers read a list token by token: the result for
    [a ++ b] is the result for [a] followed by the result for [b], the
    failure of [a] if [a] fails and else the failure of [b]; and a result has
    as many entries as the list has tokens. *)
Theorem manual_parsers_app (a b : list string) (q : string) :
  parse_input_list float (a ++ b) q
  = (its ← parse_input_list float a q; rs ← parse_input_list float b q; Ok (its ++ rs))
  ∧ parse_resources_list float (a ++ b)
    = (its ← parse_resources_list float a; rs ← parse_resources_list float b; Ok (its ++ rs))
  ∧ (∀ inputs, parse_input_list float a q = Ok inputs → length inputs = length a)
  ∧ (∀ inputs, parse_resources_list float a = Ok inputs → length inputs = length a).
Proof.
  split; [apply parse_input_list_app|]. split; [apply parse_resources_list_app|]. split.
  - intros inputs H%parse_input_list_Ok. symmetry. by eapply Forall2_length.
  - intros inputs H%parse_resources_list_Ok. symmetry. by eapply Forall2_length.
Qed.

(** X6.  The manual parsers stop at the first token that is not well formed
    and raise its exception, whatever comes after it: a [ValueError] for too
    few values when the token has no ['='], for too many values when it has
    two or more, and for the conversion of the second segment when that is no
    number (the exception carries that segment, not the token). *)
Theorem manual_parsers_first_error (pre post : list string) (item : string) (e : exn)
    (q : string) :
  Forall (well_formed float) pre →
  token_error float item = Some e →
  parse_input_list float (pre ++ item :: post) q = Raise e
  ∧ parse_resources_list float (pre ++ item :: post) = Raise e.
Proof.
  intros Hpre He.
  assert (H : parse_input_list float (pre ++ item :: post) q = Raise e).
  { intros. rewrite parse_input_list_app.
    destruct (parse_input_list_total float q pre Hpre) as [its ->]. simpl.
    rewrite parse_input_list_cons, (item_round_error q item e He). simpl.
    reflexivity. }
  split; [exact H|].
  rewrite (parse_resources_list_as_items float "normal"). apply fmap_Raise_inv.
  rewrite parse_input_list_app.
  destruct (parse_input_list_total float "normal" pre Hpre) as [its ->]. simpl.
  by rewrite parse_input_list_cons, (item_round_error "normal" item e He).
Qed.

(** X7.  A token is its key, one ['='] and its cost segment, and only so is
    it accepted.  Every token that [parse_input_list] accepts is the key of
    its entry (the segment before the ['=']), one ['='] and the segment
    after it, with no ['='] in either, and [float] reads that segment as the
    cost of the entry.  (Two tokens with one key whose segments are read
    as one number have the same entry.)  And a key (the empty one too) and a segment without ['='], joined by
    ['='], are read back as that key and the number of that segment. *)
Theorem token_entry_round_trip (q : string) :
  (∀ items inputs,
     parse_input_list float items q = Ok inputs →
     Forall2 (fun item i =>
                item = in_key i +:+ String "=" (after_first "=" item) ∧
                in_key i = before_first "=" item ∧
                occurrences "=" (in_key i) = 0 ∧
                occurrences "=" (after_first "=" item) = 0 ∧
                float (after_first "=" item) = Some (in_cost i))
             items inputs)
  ∧ (∀ k c v,
       occurrences "=" k = 0 → occurrences "=" c = 0 → float c = Some v →
       parse_input_list float [k +:+ String "=" c] q
       = Ok [ {| in_key := k; in_quality := q; in_resource := false; in_cost := v |} ]).
Proof.
  split.
  - intros items inputs H%parse_input_list_Ok.
    eapply Forall2_impl; [exact H|]. intros item i (Hocc & v & Hv & ->). simpl.
    split; [|split; [|split; [|split]]].
    + apply segments_join. by rewrite Hocc.
    + done.
    + apply before_first_clean.
    + pose proof (after_first_occurrences "=" item) as Ha. rewrite Hocc in Ha.
      specialize (Ha ltac:(done)). by injection Ha as <-.
    + done.
  - intros k c v Hk Hc Hv. apply parse_input_list_Ok.
    constructor; [|constructor]. split.
    + rewrite occurrences_join, Hk, Hc. done.
    + exists v. by rewrite after_first_join, before_first_join.
Qed.

(** ** The research expansion *)

(** Two facts of the table: no item has an empty list of recipe keys, and no
    recipe key is in the lists of two items. *)
Lemma table_recipe_keys_nonempty (k : string) (rs : list string) :
  RESEARCH_PRODUCTIVITY_ITEM_RECIPE_MAP !! k = Some rs → rs ≠ [].
Proof.
  assert (H : map_Forall (fun _ rs => rs ≠ []) RESEARCH_PRODUCTIVITY_ITEM_RECIPE_MAP).
  { apply (bool_decide_unpack _). vm_compute. exact I. }
  apply H.
Qed.

Lemma table_recipe_keys_disjoint (k1 k2 : string) (rs1 rs2 : list string) (r : string) :
  RESEARCH_PRODUCTIVITY_ITEM_RECIPE_MAP !! k1 = Some rs1 →
  RESEARCH_PRODUCTIVITY_ITEM_RECIPE_MAP !! k2 = Some rs2 →
  r ∈ rs1 → r ∈ rs2 → k1 = k2.
Proof.
  assert (H : map_Forall (fun k1 rs1 =>
                map_Forall (fun k2 rs2 => k1 = k2 ∨ Forall (fun r => r ∉ rs2) rs1)
                           RESEARCH_PRODUCTIVITY_ITEM_RECIPE_MAP)
              RESEARCH_PRODUCTIVITY_ITEM_RECIPE_MAP).
  { apply (bool_decide_unpack _). vm_compute. exact I. }
  intros H1 H2 Hr1 Hr2. destruct (H k1 rs1 H1 k2 rs2 H2) as [?|Hdis]; [done|].
  rewrite Forall_forall in Hdis. by destruct (Hdis r Hr1).
Qed.

Lemma recipe_keys_loop_Raise (s : string) (r : string) (rs : list string)
    (m : gmap string num) :
  float s = None →
  recipe_keys_loop float s (r :: rs) m = Raise (ValueError (NotAFloat s)).
Proof. intros H. simpl. unfold py_float. by rewrite H. Qed.

Lemma recipe_keys_loop_ValueError (s : string) (rs : list string) (m : gmap string num)
    (e : exn) :
  recipe_keys_loop float s rs m = Raise e → is_ValueError e = true.
Proof.
  revert m. induction rs as [|r rs IH]; intros m; simpl; [done|].
  destruct (py_float float s) as [v|e'] eqn:E; simpl; [apply IH|].
  apply py_float_Raise in E as [_ ->]. by intros [= <-].
Qed.

Lemma research_round_error (item : string) (m : gmap string num) (e : exn) :
  research_token_error float item = Some e → research_round float item m = Raise e.
Proof.
  unfold research_token_error, research_round.
  destruct (occurrences "=" item) as [|[|n]] eqn:Hocc.
  - intros [= <-]. by rewrite split_no_separator.
  - rewrite unpack2_split_one by done. simpl. unfold research_lookup.
    destruct (RESEARCH_PRODUCTIVITY_ITEM_RECIPE_MAP !! before_first "=" item)
      as [rs|] eqn:Hrs; simpl; [|by intros [= <-]].
    destruct (float (after_first "=" item)) as [v|] eqn:Hv; [done|]. intros [= <-].
    destruct rs as [|r rs]; [by apply table_recipe_keys_nonempty in Hrs|].
    by apply recipe_keys_loop_Raise.
  - intros [= <-]. by rewrite (unpack2_split_many item n).
Qed.

Lemma research_token_error_None (item : string) :
  research_token_error float item = None ↔
  ∃ k rs v, research_token float item k rs v.
Proof.
  unfold research_token_error, research_token.
  destruct (occurrences "=" item) as [|[|n]] eqn:Hocc.
  - split; [done | by intros (? & ? & ? & ? & _)].
  - destruct (RESEARCH_PRODUCTIVITY_ITEM_RECIPE_MAP !! before_first "=" item)
      as [rs|] eqn:Hrs.
    + destruct (float (after_first "=" item)) as [v|] eqn:Hv.
      * split; [intros _ | done]. by exists (before_first "=" item), rs, v.
      * split; [done | by intros (? & ? & ? & _ & _ & _ & ?)].
    + split; [done|]. intros (? & ? & ? & _ & -> & ? & _). congruence.
  - split; [done | by intros (? & ? & ? & ? & _)].
Qed.

Lemma research_tokens_of_good (items : list string) :
  Forall (fun item => research_token_error float item = None) items →
  ∃ toks, research_tokens float items toks.
Proof.
  intros H. induction H as [|item items (k & rs & v & Ht)%research_token_error_None _ [toks IH]].
  - exists []. constructor.
  - exists ((k, rs, v) :: toks). by constructor.
Qed.

Lemma research_loop_good (items : list string) (m : gmap string num) :
  Forall (fun item => research_token_error float item = None) items →
  ∃ m', research_loop float items m = Ok m'.
Proof.
  intros [toks Htoks]%research_tokens_of_good.
  destruct (research_loop_tokens float items toks m Htoks) as (m' & Hm' & _). eauto.
Qed.

Lemma research_loop_Ok_good (items : list string) (m m' : gmap string num) :
  research_loop float items m = Ok m' →
  Forall (fun item => research_token_error float item = None) items.
Proof.
  revert m. induction items as [|item items IH]; intros m; [constructor|].
  rewrite research_loop_round.
  destruct (research_token_error float item) as [e|] eqn:He.
  - by rewrite (research_round_error item m e He).
  - destruct (research_round float item m) as [m1|]; simpl; [|done].
    intros H. constructor; [done | by eapply IH].
Qed.

Lemma recipe_keys_loop_acc (s : string) (rs : list string) (m : gmap string num) :
  recipe_keys_loop float s rs m = (fun x => x ∪ m) <$> recipe_keys_loop float s rs ∅.
Proof.
  revert m. induction rs as [|r rs IH]; intros m; simpl.
  - by rewrite (left_id_L ∅ (∪)).
  - destruct (py_float float s) as [v|e]; simpl; [|done].
    rewrite (IH (<[r:=v]> m)), (IH (<[r:=v]> ∅)).
    destruct (recipe_keys_loop float s rs ∅) as [x|e]; simpl; [|done].
    f_equal. rewrite (insert_union_singleton_l m), (insert_union_singleton_l ∅).
    by rewrite (right_id_L ∅ (∪)), (assoc_L (∪)).
Qed.

Lemma research_round_acc (item : string) (m : gmap string num) :
  research_round float item m = (fun x => x ∪ m) <$> research_round float item ∅.
Proof.
  unfold research_round.
  destruct (unpack2 (split "=" item)) as [[k s]|e]; simpl; [|done].
  destruct (research_lookup k) as [rs|e]; simpl; [|done].
  apply recipe_keys_loop_acc.
Qed.

Lemma research_loop_acc (items : list string) (m : gmap string num) :
  research_loop float items m = (fun x => x ∪ m) <$> research_loop float items ∅.
Proof.
  revert m. induction items as [|item items IH]; intros m.
  - simpl. by rewrite (left_id_L ∅ (∪)).
  - rewrite !research_loop_round, (research_round_acc item m).
    destruct (research_round float item ∅) as [r0|e]; simpl; [|done].
    rewrite (IH (r0 ∪ m)), (IH r0).
    destruct (research_loop float items ∅) as [x|e]; simpl; [|done].
    by rewrite (assoc_L (∪)).
Qed.

Lemma research_rounds_commute (x y : string) (m : gmap string num) :
  research_token_error float x = None → research_token_error float y = None →
  before_first "=" x ≠ before_first "=" y →
  (m1 ← research_round float x m; research_round float y m1)
  = (m1 ← research_round float y m; research_round float x m1).
Proof.
  intros (kx & rx & vx & Hx)%research_token_error_None
         (ky & ry & vy & Hy)%research_token_error_None Hne.
  rewrite (research_round_token float x kx rx vx m Hx),
          (research_round_token float y ky ry vy m Hy). simpl.
  rewrite (research_round_token float y ky ry vy _ Hy),
          (research_round_token float x kx rx vx _ Hx).
  f_equal. apply map_eq. intros r. rewrite !lookup_foldl_insert.
  destruct (decide (r ∈ ry)) as [Hry|Hry], (decide (r ∈ rx)) as [Hrx|Hrx]; try done.
  destruct Hx as (_ & -> & Hkx & _), Hy as (_ & -> & Hky & _).
  destruct Hne. by eapply table_recipe_keys_disjoint.
Qed.

Lemma research_loop_pair (x y : string) (m : gmap string num) :
  research_loop float [x; y] m = m1 ← research_round float x m; research_round float y m1.
Proof.
  rewrite research_loop_round. destruct (research_round float x m) as [m1|e]; [|done].
  rewrite !bind_Ok, research_loop_round.
  by destruct (research_round float y m1).
Qed.

Lemma research_loop_Permutation (items items' : list string) :
  items ≡ₚ items' →
  NoDup (map (before_first "=") items) →
  Forall (fun item => research_token_error float item = None) items →
  ∀ m, research_loop float items m = research_loop float items' m.
Proof.
  induction 1 as [|x l l' Hperm IH|x y l|l l' l'' Hperm1 IH1 Hperm2 IH2];
    intros Hnodup Hgood m.
  - done.
  - rewrite !research_loop_round.
    destruct (research_round float x m) as [m1|e]; simpl; [|done].
    apply IH; [by inversion Hnodup | by inversion Hgood].
  - inversion Hgood as [|? ? Hy Hgood']; subst.
    inversion Hgood' as [|? ? Hx _]; subst.
    assert (Hne : before_first "=" x ≠ before_first "=" y).
    { simpl in Hnodup. inversion Hnodup as [|? ? Hnotin _]; subst.
      intros Heq. apply Hnotin. rewrite Heq. by left. }
    change (research_loop float ([y; x] ++ l) m = research_loop float ([x; y] ++ l) m).
    rewrite !research_loop_app, !research_loop_pair.
    by rewrite (research_rounds_commute x y m Hx Hy Hne).
  - rewrite IH1 by done. apply IH2.
    + by rewrite <- Hperm1.
    + by rewrite <- Hperm1.
Qed.

(** X8.  The research expansion stops at the first token that raises, and
    the checks of a token come in the order of the code: the unpacking (a
    [ValueError] when the token has no ['='] or more than one), then the
    subscript of the table (the [KeyError] of the item key, even when the
    level is no number), then [float] (a [ValueError] that carries the level;
    it is always reached for a key of the table, since no list of recipe
    keys is empty).  The expansion returns a mapping exactly when no token
    raises. *)
Theorem research_first_error :
  (∀ pre item post e,
     Forall (fun item => research_token_error float item = None) pre →
     research_token_error float item = Some e →
     parse_productivity_research_list float (pre ++ item :: post) = Raise e)
  ∧ (∀ items,
       (∃ m, parse_productivity_research_list float items = Ok m) ↔
       Forall (fun item => research_token_error float item = None) items).
Proof.
  split.
  - intros pre item post e Hpre He. unfold parse_productivity_research_list.
    rewrite research_loop_app. destruct (research_loop_good pre ∅ Hpre) as [m1 ->].
    rewrite bind_Ok, research_loop_round. by rewrite (research_round_error item m1 e He).
  - intros items. split.
    + intros [m Hm]. by eapply research_loop_Ok_good.
    + apply research_loop_good.
Qed.

(** X9.  The expansion of [a ++ b] is the expansion of [b] laid over the
    expansion of [a]: the union of the two mappings in which the values of
    [b] win, the failure of [a] if [a] fails and else the failure of [b].
    So giving the same tokens twice changes nothing. *)
Theorem research_expansion_app (a b : list string) :
  parse_productivity_research_list float (a ++ b)
  = (ma ← parse_productivity_research_list float a;
     mb ← parse_productivity_research_list float b;
     Ok (mb ∪ ma))
  ∧ parse_productivity_research_list float (a ++ a)
    = parse_productivity_research_list float a.
Proof.
  assert (H : ∀ a b, research_loop float (a ++ b) ∅
                     = (ma ← research_loop float a ∅; mb ← research_loop float b ∅;
                        Ok (mb ∪ ma))).
  { intros a' b'. rewrite research_loop_app.
    destruct (research_loop float a' ∅) as [ma|e]; simpl; [|done].
    rewrite research_loop_acc. by destruct (research_loop float b' ∅). }
  unfold parse_productivity_research_list. split; [apply H|].
  rewrite H. destruct (research_loop float a ∅) as [ma|e]; simpl; [|done].
  by rewrite (idemp_L (∪)).
Qed.

(** X10.  When the tokens all expand and name different items, the order of
    the tokens does not matter: every permutation of them gives the same
    mapping, because no recipe key is in the lists of two items of the
    table. *)
Theorem research_order_irrelevant (items items' : list string) :
  items ≡ₚ items' →
  NoDup (map (before_first "=") items) →
  Forall (fun item => research_token_error float item = None) items →
  parse_productivity_research_list float items'
  = parse_productivity_research_list float items.
Proof.
  intros Hperm Hnodup Hgood. symmetry. by apply research_loop_Permutation.
Qed.

(** ** [main] *)

Lemma main_Raise_after_inputs (data : game_data) (args : arguments num)
    (inputs : list (input_spec num)) (e : exn) :
  main_inputs float data args = Ok inputs →
  main_productivity_research float args = Raise e →
  main float data args = Raise e.
Proof. intros Hi Hp. unfold main. by rewrite Hi, Hp. Qed.

Lemma research_token_error_kind (item : string) (e : exn) :
  research_token_error float item = Some e →
  is_ValueError e = true
  ∨ (e = KeyError (before_first "=" item)
     ∧ RESEARCH_PRODUCTIVITY_ITEM_RECIPE_MAP !! before_first "=" item = None).
Proof.
  unfold research_token_error.
  destruct (occurrences "=" item) as [|[|n]]; [by intros [= <-]; left | | by intros [= <-]; left].
  destruct (RESEARCH_PRODUCTIVITY_ITEM_RECIPE_MAP !! before_first "=" item) eqn:Hrs.
  - destruct (float (after_first "=" item)); [done | by intros [= <-]; left].
  - intros [= <-]. by right.
Qed.

Lemma research_loop_Raise_kind (items : list string) (m : gmap string num) (e : exn) :
  research_loop float items m = Raise e →
  is_ValueError e = true
  ∨ ∃ item, item ∈ items ∧ e = KeyError (before_first "=" item)
            ∧ RESEARCH_PRODUCTIVITY_ITEM_RECIPE_MAP !! before_first "=" item = None.
Proof.
  revert m. induction items as [|item items IH]; intros m; [done|].
  rewrite research_loop_round.
  destruct (research_token_error float item) as [e'|] eqn:He.
  - rewrite (research_round_error item m e' He). intros [= <-].
    destruct (research_token_error_kind item e' He) as [?|[? ?]]; [by left|].
    right. exists item. split; [by left | done].
  - apply research_token_error_None in He as (k & rs & v & Ht).
    rewrite (research_round_token float item k rs v m Ht), bind_Ok.
    intros [?|(item' & ? & ? & ?)]%IH; [by left|].
    right. exists item'. split; [by right | done].
Qed.

Lemma parse_resources_list_ValueError (items : list string) (e : exn) :
  parse_resources_list float items = Raise e → is_ValueError e = true.
Proof.
  rewrite (parse_resources_list_as_items float "normal"), fmap_Raise_inv.
  apply parse_input_list_ValueError.
Qed.

Lemma filter_Forall_all {A} (P : A → Prop) `{!∀ x, Decision (P x)} (l : list A) :
  Forall P l → filter P l = l.
Proof.
  intros Hall. induction Hall as [|x l Hx _ IH]; [done|].
  by rewrite filter_cons_True, IH.
Qed.

Lemma filter_Forall_none {A} (P : A → Prop) `{!∀ x, Decision (P x)} (l : list A) :
  Forall (fun x => ¬ P x) l → filter P l = [].
Proof.
  intros Hall. induction Hall as [|x l Hx _ IH]; [done|].
  by rewrite filter_cons_False.
Qed.

Lemma unknown_research_key_error (item : string) :
  unknown_research_key item →
  research_token_error float item = Some (KeyError (before_first "=" item)).
Proof. intros [Hocc Hnone]. unfold research_token_error. by rewrite Hocc, Hnone. Qed.

Lemma research_token_error_KeyError (item k : string) :
  research_token_error float item = Some (KeyError k) →
  unknown_research_key item ∧ k = before_first "=" item.
Proof.
  unfold research_token_error, unknown_research_key.
  destruct (occurrences "=" item) as [|[|n]]; [done | | done].
  destruct (RESEARCH_PRODUCTIVITY_ITEM_RECIPE_MAP !! before_first "=" item) eqn:Hrs.
  - by destruct (float (after_first "=" item)).
  - by intros [= <-].
Qed.

Lemma first_raising_token (items : list string) :
  Exists (fun t => research_token_error float t ≠ None) items →
  ∃ pre item post e,
    items = pre ++ item :: post ∧
    Forall (fun t => research_token_error float t = None) pre ∧
    research_token_error float item = Some e.
Proof.
  induction items as [|t items IH]; intros H; [by apply Exists_nil in H|].
  destruct (research_token_error float t) as [e|] eqn:He.
  - exists [], t, items, e. split; [done|]. split; [constructor | done].
  - apply Exists_cons in H as [H|H]; [done|].
    destruct (IH H) as (pre & item & post & e & -> & Hpre & Hitem).
    exists (t :: pre), item, post, e. split; [done|]. split; [by constructor | done].
Qed.

Lemma research_loop_first_raising (pre post : list string) (item : string) (e : exn)
    (m : gmap string num) :
  Forall (fun t => research_token_error float t = None) pre →
  research_token_error float item = Some e →
  research_loop float (pre ++ item :: post) m = Raise e.
Proof.
  intros Hpre He. rewrite research_loop_app.
  destruct (research_loop_good pre m Hpre) as [m1 ->].
  rewrite bind_Ok, research_loop_round. by rewrite (research_round_error item m1 e He).
Qed.

(** C4, as amended.  If some research token has an item key that is not in
    the table, the expansion returns no mapping at all: it raises, and [main]
    raises before it builds a configuration or calls the solver.  The tokens
    are taken in order and each is checked by the unpacking, then the
    subscript of the table, then [float]; the exception is that of the first
    token that raises.  It is the [KeyError] of the key when that first
    token is one with an unknown key, in particular when every token before
    the first token with an unknown key has one ['='], a key of the table and
    a level that reads as a number; otherwise it is the [ValueError] of an
    earlier token, and the token with the unknown key comes after it.  When
    the inputs are read, [main] raises that same exception. *)
Theorem research_unknown_key_aborts (items : list string) :
  (Exists unknown_research_key items →
   ∃ pre item post e,
     items = pre ++ item :: post ∧
     Forall (fun t => research_token_error float t = None) pre ∧
     research_token_error float item = Some e ∧
     parse_productivity_research_list float items = Raise e ∧
     (unknown_research_key item → e = KeyError (before_first "=" item)) ∧
     (¬ unknown_research_key item →
      is_ValueError e = true ∧ Exists unknown_research_key post) ∧
     ∀ data args,
       productivity_research args = Some items →
       (∃ e', main float data args = Raise e') ∧
       (∀ inputs, main_inputs float data args = Ok inputs →
                  main float data args = Raise e))
  ∧ (∀ pre toks item post,
       items = pre ++ item :: post →
       research_tokens float pre toks → unknown_research_key item →
       parse_productivity_research_list float items
       = Raise (KeyError (before_first "=" item))).
Proof.
  split.
  - intros Hunk.
    destruct (first_raising_token items) as (pre & item & post & e & -> & Hpre & He).
    { eapply Exists_impl; [exact Hunk|]. intros t Ht. simpl.
      by rewrite (unknown_research_key_error t Ht). }
    assert (Hparse : parse_productivity_research_list float (pre ++ item :: post) = Raise e)
      by by apply research_loop_first_raising.
    exists pre, item, post, e. repeat (split; [done|]). split; [|split].
    + intros Hitem. rewrite (unknown_research_key_error item Hitem) in He. by injection He.
    + intros Hitem. split.
      * destruct e as [w|k|]; [done | | ].
        -- by apply research_token_error_KeyError in He as [? _].
        -- by destruct (research_token_error_kind item _ He) as [?|[? _]].
      * apply Exists_app in Hunk as [Hunk|Hunk].
        -- apply Exists_exists in Hunk as (t & Hin & Ht).
           rewrite Forall_forall in Hpre. specialize (Hpre t Hin).
           by rewrite (unknown_research_key_error t Ht) in Hpre.
        -- by apply Exists_cons in Hunk as [?|?].
    + intros data args Hpr.
      assert (Hp : main_productivity_research float args = Raise e).
      { unfold main_productivity_research. rewrite Hpr.
        destruct pre; exact Hparse. }
      split; [by eapply main_Raise_research|].
      intros inputs Hi. by eapply main_Raise_after_inputs.
  - intros pre toks item post -> Hpre Hunk.
    by eapply research_loop_first_unknown.
Qed.

(** X11.  [main] raises the first exception in the order of its work: that
    of the default enumeration when no manual list is supplied; else that of
    the item tokens, and if these are read, that of the resource tokens; and
    only when the inputs are there, that of the research tokens.  The
    exception comes out as it is. *)
Theorem main_error_order (data : game_data) (args : arguments num) (e : exn) :
  (input_items args = None → input_resources args = None →
   setup_inputs data (resource_cost args) (farming_cost args) (offshore_cost args) = Raise e →
   main float data args = Raise e)
  ∧ (input_items args ≠ None ∨ input_resources args ≠ None →
     manual_items float args = Raise e →
     main float data args = Raise e)
  ∧ (input_items args ≠ None ∨ input_resources args ≠ None →
     ∀ its, manual_items float args = Ok its →
            manual_resources float args = Raise e →
            main float data args = Raise e)
  ∧ (∀ inputs, main_inputs float data args = Ok inputs →
               main_productivity_research float args = Raise e →
               main float data args = Raise e).
Proof.
  split; [|split; [|split]].
  - intros Hi Hr He. apply main_Raise_inputs. by rewrite main_inputs_default.
  - intros H He. apply main_Raise_inputs. by rewrite main_inputs_manual, He.
  - intros H its Hits He. apply main_Raise_inputs.
    by rewrite main_inputs_manual, Hits, He.
  - intros inputs. apply main_Raise_after_inputs.
Qed.

(** X12.  [main] calls the solver exactly when the inputs and the research
    tokens are read without an exception: nothing else is checked, so
    allowed and disallowed lists given together, or keys that the data does
    not have, are passed on.  Without research tokens (none, or an empty
    list) the productivity mapping of the configuration is empty and only
    the inputs decide whether the solver is called. *)
Theorem main_calls_solver (data : game_data) (args : arguments num) :
  ((∃ call, main float data args = Ok call) ↔
   (∃ inputs, main_inputs float data args = Ok inputs)
   ∧ (∃ pr, main_productivity_research float args = Ok pr))
  ∧ (productivity_research args = None ∨ productivity_research args = Some [] →
     ((∃ call, main float data args = Ok call) ↔
      (∃ inputs, main_inputs float data args = Ok inputs))
     ∧ ∀ call, main float data args = Ok call →
               cfg_productivity_research (call_config call) = ∅).
Proof.
  split.
  - split.
    + intros [call (Hi & Hp & _)%main_Ok_inv]. eauto.
    + intros [[inputs Hi] [pr Hp]].
      destruct (main_runs float data args inputs pr Hi Hp) as (call & ? & _). eauto.
  - intros Hnone.
    assert (Hp : main_productivity_research float args = Ok ∅).
    { unfold main_productivity_research. by destruct Hnone as [-> | ->]. }
    split; [split|].
    + intros [call (Hi & _)%main_Ok_inv]. eauto.
    + intros [inputs Hi].
      destruct (main_runs float data args inputs ∅ Hi Hp) as (call & ? & _). eauto.
    + intros call (_ & Hp' & _)%main_Ok_inv. congruence.
Qed.

Lemma parse_input_list_Raise_token (items : list string) (q : string) (e : exn) :
  parse_input_list float items q = Raise e →
  ∃ item, item ∈ items ∧ token_error float item = Some e.
Proof.
  induction items as [|item items IH]; [done|].
  rewrite parse_input_list_cons.
  destruct (token_error float item) as [e'|] eqn:He.
  - rewrite (item_round_error q item e' He). intros [= <-].
    exists item. split; [by left | done].
  - apply token_error_None in He as [Hocc [v Hv]].
    assert (Hround : item_round float q item
                     = Ok {| in_key := before_first "=" item; in_quality := q;
                             in_resource := false; in_cost := v |}).
    { apply item_round_Ok. split; [done|]. by exists v. }
    rewrite Hround, bind_Ok. intros (item' & ? & ?)%fmap_Raise_inv%IH.
    exists item'. split; [by right | done].
Qed.

Lemma parse_resources_list_Raise_token (items : list string) (e : exn) :
  parse_resources_list float items = Raise e →
  ∃ item, item ∈ items ∧ token_error float item = Some e.
Proof.
  rewrite (parse_resources_list_as_items float "normal"), fmap_Raise_inv.
  apply parse_input_list_Raise_token.
Qed.

Lemma research_loop_Raise_token (items : list string) (m : gmap string num) (e : exn) :
  research_loop float items m = Raise e →
  ∃ item, item ∈ items ∧ research_token_error float item = Some e.
Proof.
  revert m. induction items as [|item items IH]; intros m; [done|].
  rewrite research_loop_round.
  destruct (research_token_error float item) as [e'|] eqn:He.
  - rewrite (research_round_error item m e' He). intros [= <-].
    exists item. split; [by left | done].
  - apply research_token_error_None in He as (k & rs & v & Ht).
    rewrite (research_round_token float item k rs v m Ht), bind_Ok.
    intros (item' & ? & ?)%IH. exists item'. split; [by right | done].
Qed.

(** X13.  The exceptions of [main] and where they come from.  An
    [IndexError] comes only from the default enumeration: no manual list was
    supplied and a planet lists a plant that the data does not define.  A
    [KeyError] comes only from a research token, and its key is the item key
    of a token, missing in the table.  A [ValueError] comes only from a
    token: it is the exception of a token of a supplied item list or of a
    supplied resource list (no ['='], more than one, or a cost that is no
    number), or of a research token (the same, with the level for the cost).
    With a manual list supplied the game data is never the cause of a
    failure, and a supplied list without tokens raises nothing. *)
Theorem main_error_kinds (data : game_data) (args : arguments num) (e : exn) :
  main float data args = Raise e →
  match e with
  | IndexError =>
      input_items args = None ∧ input_resources args = None ∧ ¬ plants_defined data
  | KeyError k =>
      ∃ items item, productivity_research args = Some items ∧ item ∈ items ∧
                    k = before_first "=" item ∧
                    RESEARCH_PRODUCTIVITY_ITEM_RECIPE_MAP !! k = None
  | ValueError w =>
      (∃ items item, input_items args = Some items ∧ item ∈ items ∧
                     token_error float item = Some (ValueError w))
      ∨ (∃ items item, input_resources args = Some items ∧ item ∈ items ∧
                       token_error float item = Some (ValueError w))
      ∨ (∃ items item, productivity_research args = Some items ∧ item ∈ items ∧
                       research_token_error float item = Some (ValueError w))
  end.
Proof.
  unfold main.
  destruct (main_inputs float data args) as [inputs|e'] eqn:Hi; simpl.
  - destruct (main_productivity_research float args) as [pr|e'] eqn:Hp; simpl; [done|].
    intros [= <-]. unfold main_productivity_research in Hp.
    destruct (productivity_research args) as [[|item items]|] eqn:Hpr; try done.
    apply research_loop_Raise_token in Hp as (item' & Hin & He).
    destruct e' as [w|k|].
    + right. right. by exists (item :: items), item'.
    + apply research_token_error_KeyError in He as [[_ Hnone] ->].
      by exists (item :: items), item'.
    + by destruct (research_token_error_kind item' _ He) as [?|[? _]].
  - intros [= <-].
    assert (Htok : ∀ item, token_error float item = Some e' → ∃ w, e' = ValueError w).
    { intros item He. unfold token_error in He.
      destruct (occurrences "=" item) as [|[|n]]; [by injection He as <-; eauto | |
                                                   by injection He as <-; eauto].
      destruct (float (after_first "=" item)); [done | by injection He as <-; eauto]. }
    destruct (input_items args) as [items|] eqn:Hitems.
    + rewrite main_inputs_manual in Hi by (rewrite Hitems; auto).
      unfold manual_items in Hi. rewrite Hitems in Hi.
      destruct (parse_input_list float items (input_quality args)) as [its|e0] eqn:Hp;
        simpl in Hi.
      * destruct (manual_resources float args) as [rs|e1] eqn:Hr; simpl in Hi; [done|].
        injection Hi as <-. unfold manual_resources in Hr.
        destruct (input_resources args) as [resources|] eqn:Hres; [|done].
        apply parse_resources_list_Raise_token in Hr as (item & Hin & He).
        destruct (Htok _ He) as [w ->]. right. left. by exists resources, item.
      * injection Hi as <-.
        apply parse_input_list_Raise_token in Hp as (item & Hin & He).
        destruct (Htok _ He) as [w ->]. left. by exists items, item.
    + destruct (input_resources args) as [resources|] eqn:Hres.
      * rewrite main_inputs_manual in Hi by (rewrite Hres; auto).
        unfold manual_items, manual_resources in Hi. rewrite Hitems, Hres in Hi.
        simpl in Hi.
        destruct (parse_resources_list float resources) as [rs|e0] eqn:Hp; simpl in Hi; [done|].
        injection Hi as <-.
        apply parse_resources_list_Raise_token in Hp as (item & Hin & He).
        destruct (Htok _ He) as [w ->]. right. left. by exists resources, item.
      * rewrite main_inputs_default in Hi by done.
        destruct (setup_inputs_cases data (resource_cost args) (farming_cost args)
                    (offshore_cost args)) as [[_ Hs]|[Hundef Hs]]; rewrite Hs in Hi; [done|].
        by injection Hi as <-.
Qed.

(** X14.  When a manual list is supplied, the resource flag tells the two
    lists apart: the inputs without the flag are exactly the entries of the
    item tokens and the inputs with the flag exactly the entries of the
    resource tokens, each in the order of its tokens. *)
Theorem manual_inputs_partition (data : game_data) (args : arguments num)
    (inputs : list (input_spec num)) :
  input_items args ≠ None ∨ input_resources args ≠ None →
  main_inputs float data args = Ok inputs →
  manual_items float args = Ok (filter (fun i => in_resource i = false) inputs)
  ∧ manual_resources float args = Ok (filter (fun i => in_resource i = true) inputs).
Proof.
  intros H (its & rs & Hits & Hrs & ->)%main_inputs_manual_Ok; [|done].
  assert (Hf : Forall (fun i => in_resource i = false) its).
  { apply manual_items_Ok in Hits. clear H Hrs.
    destruct (input_items args); [|by subst].
    induction Hits as [|? ? ? ? (_ & v & _ & ->) _ IH]; [by apply Forall_nil|].
    apply Forall_cons. by split. }
  assert (Ht : Forall (fun i => in_resource i = true) rs).
  { apply manual_resources_Ok in Hrs. clear H Hits Hf.
    destruct (input_resources args); [|by subst].
    induction Hrs as [|? ? ? ? (_ & v & _ & ->) _ IH]; [by apply Forall_nil|].
    apply Forall_cons. by split. }
  rewrite !filter_app.
  rewrite (filter_Forall_all _ its Hf), (filter_Forall_all _ rs Ht).
  rewrite (filter_Forall_none (fun i => in_resource i = false) rs),
          (filter_Forall_none (fun i => in_resource i = true) its).
  - by rewrite app_nil_r.
  - eapply Forall_impl; [exact Hf|]. intros i Hi. simpl. by rewrite Hi.
  - eapply Forall_impl; [exact Ht|]. intros i Hi. simpl. by rewrite Hi.
Qed.

Lemma main_Ok_lists (data : game_data) (args : arguments num) (call : solver_call num) :
  main float data args = Ok call →
  cfg_allowed_recipes (call_config call) = py_if_else_None (allowed_recipes args) ∧
  cfg_disallowed_recipes (call_config call) = py_if_else_None (disallowed_recipes args) ∧
  cfg_allowed_crafting_machines (call_config call)
    = py_if_else_None (allowed_crafting_machines args) ∧
  cfg_disallowed_crafting_machines (call_config call)
    = py_if_else_None (disallowed_crafting_machines args).
Proof.
  unfold main. destruct (main_inputs float data args) as [inputs|]; simpl; [|done].
  destruct (main_productivity_research float args) as [pr|]; simpl; [|done].
  by intros [= <-].
Qed.

Lemma py_if_else_None_spec {A} (given : option (list A)) :
  py_if_else_None given ≠ Some []
  ∧ (∀ l, given = Some l → l ≠ [] → py_if_else_None given = Some l)
  ∧ (given = None ∨ given = Some [] → py_if_else_None given = None).
Proof.
  destruct given as [[|x l]|]; simpl; repeat split; try done;
    try (by intros l [= <-]); by intros [?|?].
Qed.

(** X15.  The configuration never carries an empty list of allowed or
    disallowed recipes or crafting machines: each of the four lists is passed
    as it is when it has an entry, and is [None] when the caller gave none or
    an empty one. *)
Theorem allow_lists_never_empty (data : game_data) (args : arguments num)
    (call : solver_call num) :
  main float data args = Ok call →
  let passed (given result : option (list string)) :=
    result ≠ Some []
    ∧ (∀ l, given = Some l → l ≠ [] → result = Some l)
    ∧ (given = None ∨ given = Some [] → result = None) in
  passed (allowed_recipes args) (cfg_allowed_recipes (call_config call))
  ∧ passed (disallowed_recipes args) (cfg_disallowed_recipes (call_config call))
  ∧ passed (allowed_crafting_machines args)
           (cfg_allowed_crafting_machines (call_config call))
  ∧ passed (disallowed_crafting_machines args)
           (cfg_disallowed_crafting_machines (call_config call)).
Proof.
  intros (-> & -> & -> & ->)%main_Ok_lists passed.
  repeat split; try apply py_if_else_None_spec; by apply py_if_else_None_spec.
Qed.

(** X16.  The input quality is used for the item tokens only: when no item
    list is supplied, or an empty one, the inputs are the same for every
    input quality, with the default enumeration as with resource tokens. *)
Theorem input_quality_only_for_items (data : game_data) (args args' : arguments num) :
  input_items args = None ∨ input_items args = Some [] →
  input_items args' = input_items args →
  input_resources args' = input_resources args →
  resource_cost args' = resource_cost args →
  farming_cost args' = farming_cost args →
  offshore_cost args' = offshore_cost args →
  main_inputs float data args' = main_inputs float data args.
Proof.
  intros Hnone Hi Hr Hrc Hfc Hoc. unfold main_inputs.
  rewrite Hi, Hr, Hrc, Hfc, Hoc. by destruct Hnone as [-> | ->].
Qed.

End Coverage.

(** ** The further properties on concrete inputs *)

Import MoreExamples.

(** X1 at a planet that lists [ghost-plant], and at the example data. *)
Lemma setup_inputs_missing_plant_witness :
  setup_inputs data_dangling one one tenth = Raise IndexError
  ∧ ∃ inputs, setup_inputs data one one tenth = Ok inputs.
Proof.
  split.
  - apply (proj2 (proj1 (setup_inputs_missing_plant data_dangling one one tenth))).
    eexists _, "ghost-plant". split; [apply list_elem_of_here|].
    split; [apply list_elem_of_here|]. by repeat constructor.
  - apply (proj2 (proj2 (proj2 (setup_inputs_missing_plant data one one tenth)))).
    exact plants_defined_data.
Defined.

(** X2 at a second definition of [tree-plant] that gives charcoal. *)
Lemma later_plant_definitions_ignored_witness :
  setup_inputs {| data_planets := data_planets data;
                  data_plants := data_plants data ++ more_plants |} one one tenth
  = setup_inputs data one one tenth.
Proof.
  exact (later_plant_definitions_ignored data more_plants one one tenth plants_defined_data).
Defined.

(** X4 at the example data. *)
Lemma default_inputs_invariants_witness :
  ∃ inputs,
    setup_inputs data one one tenth = Ok inputs
    ∧ Forall (fun i => in_quality i = "normal") inputs
    ∧ map in_key (filter (fun i => in_resource i = true) inputs)
      = ["iron-ore"; "copper-ore"; "stone"].
Proof.
  destruct (setup_inputs data one one tenth) as [inputs|e] eqn:E; [|discriminate E].
  exists inputs. split; [reflexivity|].
  destruct (default_inputs_invariants data one one tenth inputs E) as (Hq & Hr & _).
  split; [exact Hq|]. rewrite Hr. reflexivity.
Defined.

(** X5 at two item tokens. *)
Lemma manual_parsers_app_witness :
  ∃ inputs,
    parse_input_list float ["copper-plate=2.5"; "iron-plate=1"] "normal" = Ok inputs
    ∧ length inputs = 2.
Proof.
  destruct (parse_input_list float ["copper-plate=2.5"; "iron-plate=1"] "normal")
    as [inputs|e] eqn:E; [|discriminate E].
  exists inputs. split; [reflexivity|].
  exact (proj1 (proj2 (proj2 (manual_parsers_app float ["copper-plate=2.5"; "iron-plate=1"]
                                [] "normal"))) inputs E).
Defined.

(** X6 at a good token followed by the three kinds of bad token. *)
Lemma manual_parsers_first_error_witness :
  parse_input_list float (["copper-plate=2.5"] ++ "bad-token" :: ["x=y"]) "normal"
  = Raise (ValueError (NotEnoughValues 1))
  ∧ parse_resources_list float (["copper-plate=2.5"] ++ "a=b=c" :: ["bad-token"])
    = Raise (ValueError TooManyValues)
  ∧ parse_input_list float (["copper-plate=2.5"] ++ "key=notanumber" :: []) "normal"
    = Raise (ValueError (NotAFloat "notanumber")).
Proof.
  assert (Hpre : Forall (well_formed float) ["copper-plate=2.5"]) by well_formed_tokens.
  split; [|split].
  - exact (proj1 (manual_parsers_first_error float ["copper-plate=2.5"] ["x=y"] "bad-token"
                    (ValueError (NotEnoughValues 1)) "normal" Hpre eq_refl)).
  - exact (proj2 (manual_parsers_first_error float ["copper-plate=2.5"] ["bad-token"] "a=b=c"
                    (ValueError TooManyValues) "normal" Hpre eq_refl)).
  - exact (proj1 (manual_parsers_first_error float ["copper-plate=2.5"] [] "key=notanumber"
                    (ValueError (NotAFloat "notanumber")) "normal" Hpre eq_refl)).
Defined.

(** X7 at the key [copper-plate], at the empty key, and at two spellings of
    one cost. *)
Lemma token_entry_round_trip_witness :
  parse_input_list float ["copper-plate=2.5"] "rare"
  = Ok [ {| in_key := "copper-plate"; in_quality := "rare"; in_resource := false;
            in_cost := {| mantissa := 25; scale := 1 |} |} ]
  ∧ parse_input_list float ["=1.0"] "rare"
    = Ok [ {| in_key := ""; in_quality := "rare"; in_resource := false; in_cost := one |} ]
  ∧ parse_input_list float ["x=+1.0"] "rare" = parse_input_list float ["x=1.0"] "rare".
Proof.
  split; [|split].
  - by apply (proj2 (token_entry_round_trip float "rare") "copper-plate" "2.5").
  - by apply (proj2 (token_entry_round_trip float "rare") "" "1.0").
  - transitivity (Ok [ {| in_key := "x"; in_quality := "rare"; in_resource := false;
                          in_cost := one |} ]).
    + exact (proj2 (token_entry_round_trip float "rare") "x" "+1.0" one
               eq_refl eq_refl eq_refl).
    + symmetry.
      exact (proj2 (token_entry_round_trip float "rare") "x" "1.0" one
               eq_refl eq_refl eq_refl).
Defined.

(** X8 at an unknown key with a level that is no number, and at a known key
    with such a level. *)
Lemma research_first_error_witness :
  parse_productivity_research_list float ["scrap=0.1"; "unobtainium=abc"; "scrap"]
  = Raise (KeyError "unobtainium")
  ∧ parse_productivity_research_list float ["scrap=0.1"; "plastic-bar=abc"]
    = Raise (ValueError (NotAFloat "abc"))
  ∧ ∃ m, parse_productivity_research_list float ["scrap=0.1"; "plastic-bar=0.2"] = Ok m.
Proof.
  split; [|split].
  - apply (proj1 (research_first_error float) ["scrap=0.1"] "unobtainium=abc" ["scrap"]);
      [by repeat constructor | reflexivity].
  - apply (proj1 (research_first_error float) ["scrap=0.1"] "plastic-bar=abc" []);
      [by repeat constructor | reflexivity].
  - apply (proj2 (research_first_error float)). by repeat constructor.
Defined.

(** X10 at three tokens of different items, in two orders. *)
Lemma research_order_irrelevant_witness :
  parse_productivity_research_list float ["scrap=0.1"; "steel-plate=0.5"; "plastic-bar=0.2"]
  = parse_productivity_research_list float ["plastic-bar=0.2"; "scrap=0.1"; "steel-plate=0.5"].
Proof.
  apply (research_order_irrelevant float
           ["plastic-bar=0.2"; "scrap=0.1"; "steel-plate=0.5"]
           ["scrap=0.1"; "steel-plate=0.5"; "plastic-bar=0.2"]).
  - apply (Permutation_cons_append ["scrap=0.1"; "steel-plate=0.5"] "plastic-bar=0.2").
  - simpl. repeat (apply NoDup_cons; split; [not_in_list|]). apply NoDup_nil_2.
  - by repeat constructor.
Defined.

(** X11 at a bad item token together with a bad research token, and at a
    bad research token alone. *)
Lemma main_error_order_witness :
  main float data
    (with_research (Some ["unobtainium=0.3"]) (with_inputs (Some ["bad-token"]) None defaults))
  = Raise (ValueError (NotEnoughValues 1))
  ∧ main float data (with_research (Some ["unobtainium=0.3"]) defaults)
    = Raise (KeyError "unobtainium").
Proof.
  split.
  - apply (proj1 (proj2 (main_error_order float data _ _))); [by left | reflexivity].
  - eapply (proj2 (proj2 (proj2 (main_error_order float data _ _)))); reflexivity.
Defined.

(** X12 at allowed and disallowed recipes given together. *)
Lemma main_calls_solver_witness :
  ∃ call,
    main float data (with_recipes (Some ["iron-plate"]) (Some ["iron-plate"]) defaults) = Ok call
    ∧ cfg_productivity_research (call_config call) = ∅.
Proof.
  destruct (main_calls_solver float data
              (with_recipes (Some ["iron-plate"]) (Some ["iron-plate"]) defaults))
    as [_ Hnone].
  destruct (Hnone (or_introl eq_refl)) as [Hiff Hempty].
  destruct (proj2 Hiff) as [call Hcall].
  - eexists. reflexivity.
  - exists call. split; [exact Hcall | exact (Hempty call Hcall)].
Defined.

(** X13 at the three exceptions. *)
Lemma main_error_kinds_witness :
  (input_items defaults = None ∧ input_resources defaults = None
   ∧ ¬ plants_defined data_dangling)
  ∧ (∃ items item,
       productivity_research (with_research (Some ["unobtainium=0.3"]) defaults) = Some items
       ∧ item ∈ items ∧ "unobtainium" = before_first "=" item
       ∧ RESEARCH_PRODUCTIVITY_ITEM_RECIPE_MAP !! "unobtainium" = None)
  ∧ ((∃ items item,
        input_items (with_inputs (Some ["iron-plate=1"; "key=notanumber"]) None defaults)
        = Some items
        ∧ item ∈ items
        ∧ token_error float item = Some (ValueError (NotAFloat "notanumber")))
     ∨ (∃ items item,
          input_resources (with_inputs (Some ["iron-plate=1"; "key=notanumber"]) None defaults)
          = Some items
          ∧ item ∈ items
          ∧ token_error float item = Some (ValueError (NotAFloat "notanumber")))
     ∨ (∃ items item,
          productivity_research
            (with_inputs (Some ["iron-plate=1"; "key=notanumber"]) None defaults)
          = Some items
          ∧ item ∈ items
          ∧ research_token_error float item = Some (ValueError (NotAFloat "notanumber")))).
Proof.
  split; [|split].
  - exact (main_error_kinds float data_dangling defaults IndexError eq_refl).
  - exact (main_error_kinds float data (with_research (Some ["unobtainium=0.3"]) defaults)
             (KeyError "unobtainium") eq_refl).
  - exact (main_error_kinds float data
             (with_inputs (Some ["iron-plate=1"; "key=notanumber"]) None defaults)
             (ValueError (NotAFloat "notanumber")) eq_refl).
Defined.

(** X14 at one item token and one resource token. *)
Lemma manual_inputs_partition_witness :
  ∃ inputs,
    main_inputs float data
      (with_inputs (Some ["copper-plate=2.5"]) (Some ["iron-ore=1.0"]) defaults) = Ok inputs
    ∧ parse_input_list float ["copper-plate=2.5"] "normal"
      = Ok (filter (fun i => in_resource i = false) inputs)
    ∧ parse_resources_list float ["iron-ore=1.0"]
      = Ok (filter (fun i => in_resource i = true) inputs).
Proof.
  eexists. split; [reflexivity|].
  apply (manual_inputs_partition float data
           (with_inputs (Some ["copper-plate=2.5"]) (Some ["iron-ore=1.0"]) defaults));
    [by left | reflexivity].
Defined.

(** X15 at an empty list of allowed recipes and one disallowed recipe. *)
Lemma allow_lists_never_empty_witness :
  ∃ call,
    main float data (with_recipes (Some []) (Some ["iron-plate"]) defaults) = Ok call
    ∧ cfg_allowed_recipes (call_config call) = None
    ∧ cfg_disallowed_recipes (call_config call) = Some ["iron-plate"].
Proof.
  destruct (main float data (with_recipes (Some []) (Some ["iron-plate"]) defaults))
    as [call|e] eqn:E; [|discriminate E].
  exists call. split; [reflexivity|].
  destruct (allow_lists_never_empty float data _ call E) as ((_ & _ & Ha) & (_ & Hd & _) & _).
  split; [apply Ha; by right | by apply Hd].
Defined.

(** X16 at the default enumeration and at resource tokens, for the input
    quality [epic]. *)
Lemma input_quality_only_for_items_witness :
  main_inputs float data (with_input_quality "epic" defaults)
  = main_inputs float data defaults
  ∧ main_inputs float data
      (with_input_quality "epic" (with_inputs (Some []) (Some ["iron-ore=1.0"]) defaults))
    = main_inputs float data (with_inputs (Some []) (Some ["iron-ore=1.0"]) defaults).
Proof.
  split.
  - by apply (input_quality_only_for_items float data defaults
                (with_input_quality "epic" defaults)); [left | ..].
  - by apply (input_quality_only_for_items float data
                (with_inputs (Some []) (Some ["iron-ore=1.0"]) defaults)
                (with_input_quality "epic"
                   (with_inputs (Some []) (Some ["iron-ore=1.0"]) defaults))); [right | ..].
Defined.

(** C4 at the token [unobtainium=0.3]: alone, after a good token, and after
    a token whose level is no number. *)
Lemma research_unknown_key_aborts_witness :
  parse_productivity_research_list float ["unobtainium=0.3"] = Raise (KeyError "unobtainium")
  ∧ parse_productivity_research_list float ["steel-plate=0.5"; "unobtainium=0.3"]
    = Raise (KeyError "unobtainium")
  ∧ main float data (with_research (Some ["steel-plate=abc"; "unobtainium=0.3"]) defaults)
    = Raise (ValueError (NotAFloat "abc")).
Proof.
  split; [|split].
  - apply (proj2 (research_unknown_key_aborts float ["unobtainium=0.3"])
             [] [] "unobtainium=0.3" []); [done | constructor | by split].
  - apply (proj2 (research_unknown_key_aborts float ["steel-plate=0.5"; "unobtainium=0.3"])
             ["steel-plate=0.5"]
             [("steel-plate", ["steel-plate"; "casting-steel"], {| mantissa := 5; scale := 1 |})]
             "unobtainium=0.3" []); [done | | by split].
    constructor; [by repeat split | constructor].
  - destruct (proj1 (research_unknown_key_aborts float ["steel-plate=abc"; "unobtainium=0.3"]))
      as (pre & item & post & e & _ & _ & _ & Hparse & _ & _ & Hmain).
    + right. left. by split.
    + assert (He : e = ValueError (NotAFloat "abc")).
      { vm_compute in Hparse. by injection Hparse as <-. }
      rewrite <- He.
      destruct (Hmain data (with_research (Some ["steel-plate=abc"; "unobtainium=0.3"])
                              defaults) eq_refl) as [_ Hraise].
      by eapply Hraise.
Defined.
